(** * EasyDeals storefront components: search card and search results

    A shallow embedding of the Lightning web components of the
    repository:

    - [SearchCard] (the product card: [image], [fields], [price],
      [hasPrice], [listingPrice], [canShowListingPrice], [currency]);
    - [SearchResults] (the search / pagination coordinator:
      the query setters, [triggerProductSearch], the page, facet and
      category handlers, [headerText], [resolvedEffectiveAccountId],
      [closeComparingModal]).

    JavaScript values are modelled by the small sum [JSValue]; a property
    that may be missing from an object is an [option]; a getter that can
    raise [TypeError] returns a [JSResult].  Integers that the component
    computes with (totals, page sizes, page numbers) are [Z]; the numbers
    produced by [Number(...)] on price strings are IEEE 754 binary64
    values, taken in the IEEE 754 model [spec_float]. *)

From Stdlib Require Import ZArith Floats.SpecFloat.
From stdpp Require Import base option list strings pretty.

Open Scope Z_scope.
Open Scope string_scope.

(** ** JavaScript values and exceptions *)

Module JS.

(** The values that flow through the getters.  Text properties are
    strings or are missing ([undefined] and [null] behave alike in every
    use below: both are falsy, and reading a property of either raises);
    a getter built with [&&] may also hand back a boolean. *)
Inductive JSValue : Type :=
| JSUndefined
| JSBool (b : bool)
| JSString (s : string).

(** [ToBoolean]: [undefined], [false] and the empty string are falsy. *)
Definition truthy (v : JSValue) : bool :=
  match v with
  | JSUndefined => false
  | JSBool b => b
  | JSString s => negb (String.eqb s "")
  end.

(** Reading a property that holds a string or is missing. *)
Definition prop (o : option string) : JSValue :=
  match o with
  | Some s => JSString s
  | None => JSUndefined
  end.

(** [a || b], with [b] evaluated only when [a] is falsy. *)
Definition or_else (a : JSValue) (b : unit -> JSValue) : JSValue :=
  if truthy a then a else b tt.

(** [a && b], with [b] evaluated only when [a] is truthy. *)
Definition and_then (a : JSValue) (b : unit -> JSValue) : JSValue :=
  if truthy a then b tt else a.

(** The only exception the getters can raise: a property read on
    [undefined]. *)
Inductive JSError : Type :=
| TypeError (msg : string).

Inductive JSResult (A : Type) : Type :=
| Ok (a : A)
| Throw (e : JSError).
Arguments Ok {A} a.
Arguments Throw {A} e.

(** Sequencing: an exception raised by [m] skips the rest. *)
#[global] Instance JSResult_ret : MRet JSResult := fun A a => Ok a.
#[global] Instance JSResult_bind : MBind JSResult := fun A B k m =>
  match m with
  | Ok a => k a
  | Throw e => Throw e
  end.

Definition returns {A} (m : JSResult A) : Prop := exists a, m = Ok a.
Definition throws {A} (m : JSResult A) : Prop := exists e, m = Throw e.

(** [x > y] on numbers: [y < x] in IEEE 754, false as soon as one side
    is NaN. *)
Definition num_gt (x y : spec_float) : bool := SFltb y x.

End JS.

(** ** The product card (SearchCard) *)

Module SearchCard.
Import JS.

(** typedef [Image]; the empty object [{}] has no property at all. *)
Module Image.
Record t : Type := mk {
  url : option string;
  title : option string;
  alternativeText : option string
}.
Definition empty : t := mk None None None.
End Image.

(** typedef [Pricing]. *)
Module Pricing.
Record t : Type := mk {
  listingPrice : option string;
  negotiatedPrice : option string;
  currencyIsoCode : option string
}.
End Pricing.

(** One [{ name, value }] entry of the [fields] array of a product. *)
Module Field.
Record t : Type := mk {
  name : string;
  value : string
}.
End Field.

(** typedef [Product], the card's [displayData].  [image], [fields] and
    [prices] are properties that the object may lack. *)
Module Product.
Record t : Type := mk {
  id : string;
  name : string;
  image : option Image.t;
  fields : option (list Field.t);
  prices : option Pricing.t
}.
End Product.

(** One entry of the array that the [fields] getter builds. *)
Module DisplayField.
Record t : Type := mk {
  id : Z;
  tabIndex : Z;
  class : string;
  value : string
}.
End DisplayField.

(** [get image()]: [this.displayData.image || {}]. *)
Definition image (displayData : Product.t) : Image.t :=
  match Product.image displayData with
  | Some i => i
  | None => Image.empty
  end.

(** The arrow function mapped over the fields; [id] is the index. *)
Definition formatField (id : nat) (f : Field.t) : DisplayField.t :=
  {| DisplayField.id := Z.of_nat id + 1;
     DisplayField.tabIndex := if Nat.eqb id 0 then 0 else -1;
     DisplayField.class :=
       if Nat.eqb id 0
       then "slds-truncate slds-text-heading_medium"
       else "slds-truncate slds-text-heading_small";
     DisplayField.value :=
       if String.eqb (Field.name f) "Name"
          || String.eqb (Field.name f) "Description"
       then Field.value f
       else Field.name f +:+ ": " +:+ Field.value f |}.

(** [get fields()]: [(this.displayData.fields || []).map(...)]. *)
Definition fields (displayData : Product.t) : list DisplayField.t :=
  imap formatField (default [] (Product.fields displayData)).

(** [const prices = this.displayData.prices; prices.<property>]: the
    read raises [TypeError] when [prices] is undefined. *)
Definition readPrices (displayData : Product.t) : JSResult Pricing.t :=
  match Product.prices displayData with
  | Some p => Ok p
  | None => Throw (TypeError "Cannot read properties of undefined")
  end.

(** [get price()]: [prices.negotiatedPrice || prices.listingPrice]. *)
Definition price (displayData : Product.t) : JSResult JSValue :=
  p ← readPrices displayData;
  Ok (or_else (prop (Pricing.negotiatedPrice p))
              (fun _ => prop (Pricing.listingPrice p))).

(** [get hasPrice()]: [!!this.price]. *)
Definition hasPrice (displayData : Product.t) : JSResult bool :=
  v ← price displayData;
  Ok (truthy v).

(** [get listingPrice()]. *)
Definition listingPrice (displayData : Product.t) : JSResult JSValue :=
  p ← readPrices displayData;
  Ok (prop (Pricing.listingPrice p)).

(** [get currency()]. *)
Definition currency (displayData : Product.t) : JSResult JSValue :=
  p ← readPrices displayData;
  Ok (prop (Pricing.currencyIsoCode p)).

Section WithNumber.

(** [Number(v)], the built-in conversion of a value to a binary64
    number. *)
Variable Number : JSValue -> spec_float.

(** [get canShowListingPrice()]:
    [prices.negotiatedPrice && prices.listingPrice &&
     Number(prices.listingPrice) > Number(prices.negotiatedPrice)]. *)
Definition canShowListingPrice (displayData : Product.t) : JSResult JSValue :=
  p ← readPrices displayData;
  Ok (and_then
        (and_then (prop (Pricing.negotiatedPrice p))
                  (fun _ => prop (Pricing.listingPrice p)))
        (fun _ => JSBool (num_gt (Number (prop (Pricing.listingPrice p)))
                                 (Number (prop (Pricing.negotiatedPrice p)))))).

End WithNumber.

End SearchCard.

(** ** The search results component (SearchResults) *)

Module SearchResults.
Import JS.

(** What the component keeps of a transformed result page: the two
    counters it reads back ([displayData.total], [displayData.pageSize])
    and the cards handed to the layout. *)
Module DisplayData.
Record t : Type := mk {
  total : Z;
  pageSize : Z;
  layoutData : list SearchCard.Product.t
}.
End DisplayData.

(** [ConnectApi.CartSummary], of which only [status] is read. *)
Module CartSummary.
Record t : Type := mk {
  status : string
}.
End CartSummary.

(** A facet refinement is opaque to the component, which only stores it
    and serializes it into the query; it is kept as its JSON text. *)
Definition Refinement : Type := string.

(** The object that [triggerProductSearch] passes to [JSON.stringify]. *)
Module SearchQuery.
Record t : Type := mk {
  searchTerm : option string;
  categoryId : option string;
  refinements : list Refinement;
  page : Z;
  includePrices : bool;
  includeQuantityRule : bool
}.
End SearchQuery.

(** The fields of the class that the members modelled below read or
    write.  A field without initializer starts [undefined] ([None]);
    [idsToCompare] is created by its first assignment.  The layout
    properties and the comparator data, which only [config] and
    [displayComparingModal] touch, are left out. *)
Record Component : Type := mkComponent {
  _displayData : option DisplayData.t;
  _isLoading : bool;
  _pageNumber : Z;
  _refinements : list Refinement;
  _term : option string;
  _recordId : option string;
  _landingRecordId : option string;
  _cardContentMapping : option string;
  _effectiveAccountId : option string;
  _cartSummary : option CartSummary.t;
  error : option string;
  idsToCompare : option string;
  isComparingModalOpen : bool
}.

(** The field initializers of the class body. *)
Definition newComponent : Component :=
  {| _displayData := None; _isLoading := false; _pageNumber := 1;
     _refinements := []; _term := None; _recordId := None;
     _landingRecordId := None; _cardContentMapping := None;
     _effectiveAccountId := None; _cartSummary := None; error := None;
     idsToCompare := None; isComparingModalOpen := false |}.

(** Field assignments [this.f = v]. *)
Definition with_displayData (v : option DisplayData.t) (c : Component) : Component :=
  mkComponent v (_isLoading c) (_pageNumber c) (_refinements c) (_term c)
    (_recordId c) (_landingRecordId c) (_cardContentMapping c)
    (_effectiveAccountId c) (_cartSummary c) (error c) (idsToCompare c)
    (isComparingModalOpen c).
Definition with_isLoading (v : bool) (c : Component) : Component :=
  mkComponent (_displayData c) v (_pageNumber c) (_refinements c) (_term c)
    (_recordId c) (_landingRecordId c) (_cardContentMapping c)
    (_effectiveAccountId c) (_cartSummary c) (error c) (idsToCompare c)
    (isComparingModalOpen c).
Definition with_pageNumber (v : Z) (c : Component) : Component :=
  mkComponent (_displayData c) (_isLoading c) v (_refinements c) (_term c)
    (_recordId c) (_landingRecordId c) (_cardContentMapping c)
    (_effectiveAccountId c) (_cartSummary c) (error c) (idsToCompare c)
    (isComparingModalOpen c).
Definition with_refinements (v : list Refinement) (c : Component) : Component :=
  mkComponent (_displayData c) (_isLoading c) (_pageNumber c) v (_term c)
    (_recordId c) (_landingRecordId c) (_cardContentMapping c)
    (_effectiveAccountId c) (_cartSummary c) (error c) (idsToCompare c)
    (isComparingModalOpen c).
Definition with_term (v : option string) (c : Component) : Component :=
  mkComponent (_displayData c) (_isLoading c) (_pageNumber c) (_refinements c) v
    (_recordId c) (_landingRecordId c) (_cardContentMapping c)
    (_effectiveAccountId c) (_cartSummary c) (error c) (idsToCompare c)
    (isComparingModalOpen c).
Definition with_recordId (v : option string) (c : Component) : Component :=
  mkComponent (_displayData c) (_isLoading c) (_pageNumber c) (_refinements c)
    (_term c) v (_landingRecordId c) (_cardContentMapping c)
    (_effectiveAccountId c) (_cartSummary c) (error c) (idsToCompare c)
    (isComparingModalOpen c).
Definition with_landingRecordId (v : option string) (c : Component) : Component :=
  mkComponent (_displayData c) (_isLoading c) (_pageNumber c) (_refinements c)
    (_term c) (_recordId c) v (_cardContentMapping c)
    (_effectiveAccountId c) (_cartSummary c) (error c) (idsToCompare c)
    (isComparingModalOpen c).
Definition with_cardContentMapping (v : option string) (c : Component) : Component :=
  mkComponent (_displayData c) (_isLoading c) (_pageNumber c) (_refinements c)
    (_term c) (_recordId c) (_landingRecordId c) v
    (_effectiveAccountId c) (_cartSummary c) (error c) (idsToCompare c)
    (isComparingModalOpen c).
Definition with_effectiveAccountId (v : option string) (c : Component) : Component :=
  mkComponent (_displayData c) (_isLoading c) (_pageNumber c) (_refinements c)
    (_term c) (_recordId c) (_landingRecordId c) (_cardContentMapping c)
    v (_cartSummary c) (error c) (idsToCompare c) (isComparingModalOpen c).
Definition with_cartSummary (v : option CartSummary.t) (c : Component) : Component :=
  mkComponent (_displayData c) (_isLoading c) (_pageNumber c) (_refinements c)
    (_term c) (_recordId c) (_landingRecordId c) (_cardContentMapping c)
    (_effectiveAccountId c) v (error c) (idsToCompare c) (isComparingModalOpen c).
Definition with_error (v : option string) (c : Component) : Component :=
  mkComponent (_displayData c) (_isLoading c) (_pageNumber c) (_refinements c)
    (_term c) (_recordId c) (_landingRecordId c) (_cardContentMapping c)
    (_effectiveAccountId c) (_cartSummary c) v (idsToCompare c)
    (isComparingModalOpen c).
Definition with_idsToCompare (v : option string) (c : Component) : Component :=
  mkComponent (_displayData c) (_isLoading c) (_pageNumber c) (_refinements c)
    (_term c) (_recordId c) (_landingRecordId c) (_cardContentMapping c)
    (_effectiveAccountId c) (_cartSummary c) (error c) v
    (isComparingModalOpen c).
Definition with_isComparingModalOpen (v : bool) (c : Component) : Component :=
  mkComponent (_displayData c) (_isLoading c) (_pageNumber c) (_refinements c)
    (_term c) (_recordId c) (_landingRecordId c) (_cardContentMapping c)
    (_effectiveAccountId c) (_cartSummary c) (error c) (idsToCompare c) v.

(** *** Getters that read the component only *)

(** [get resolvedEffectiveAccountId()]; the result [None] is [null]. *)
Definition resolvedEffectiveAccountId (c : Component) : option string :=
  let effectiveAcocuntId := default "" (_effectiveAccountId c) in
  if (0 <? String.length effectiveAcocuntId)%nat
     && negb (String.eqb effectiveAcocuntId "000000000000000")
  then Some effectiveAcocuntId
  else None.

(** [get headerText()].  [this.displayData] is [this._displayData || {}]:
    before the first response both counters are [undefined], both tests
    fail and the text stays empty.  Numbers are printed in decimal. *)
Definition headerText (c : Component) : string :=
  match _displayData c with
  | None => ""
  | Some d =>
      let totalItemCount := DisplayData.total d in
      let pageSize := DisplayData.pageSize d in
      if (1 <? totalItemCount)%Z then
        let startIndex := (_pageNumber c - 1) * pageSize + 1 in
        let endIndex := Z.min (startIndex + pageSize - 1) totalItemCount in
        pretty startIndex +:+ " - " +:+ pretty endIndex +:+ " of "
          +:+ pretty totalItemCount +:+ " Items"
      else if (totalItemCount =? 1)%Z then "1 Result"
      else ""
  end.

(** [get hasMorePages()], [undefined > undefined] being false. *)
Definition hasMorePages (c : Component) : bool :=
  match _displayData c with
  | None => false
  | Some d => (DisplayData.pageSize d <? DisplayData.total d)%Z
  end.

(** [get isCartLocked()]. *)
Definition isCartLocked (c : Component) : bool :=
  match _cartSummary c with
  | None => false
  | Some s => String.eqb (CartSummary.status s) "Processing"
              || String.eqb (CartSummary.status s) "Checkout"
  end.

(** *** Calls to the Apex controllers

    Every imperative Apex call returns a promise.  The calls are kept in
    the order they were made; the position of a call in that list is the
    identity of its promise.  The community id passed to every call is a
    module constant and is left out. *)
Inductive ApexCall : Type :=
| productSearch (searchQuery : SearchQuery.t) (effectiveAccountId : option string)
| getCartSummary (effectiveAccountId : option string)
| cleanCache.

Record Promise : Type := mkPromise {
  call : ApexCall;
  settled : bool
}.

(** The component together with the promises of the calls it has made. *)
Record World : Type := mkWorld {
  this : Component;
  promises : list Promise
}.

Definition newWorld : World := mkWorld newComponent [].

Definition update (f : Component -> Component) (w : World) : World :=
  mkWorld (f (this w)) (promises w).

Definition invoke (a : ApexCall) (w : World) : World :=
  mkWorld (this w) (promises w ++ [mkPromise a false]).

(** [triggerProductSearch()]: build the query, raise the loading flag,
    call [productSearch].  The [then] and [catch] callbacks run when the
    promise settles, see [continuation] below. *)
Definition triggerProductSearch (w : World) : World :=
  let searchQuery :=
    {| SearchQuery.searchTerm := _term (this w);
       SearchQuery.categoryId := _recordId (this w);
       SearchQuery.refinements := _refinements (this w);
       SearchQuery.page := _pageNumber (this w) - 1;
       SearchQuery.includePrices := true;
       SearchQuery.includeQuantityRule := true |} in
  let w := update (with_isLoading true) w in
  invoke (productSearch searchQuery (resolvedEffectiveAccountId (this w))) w.

(** [updateCartInformation()]. *)
Definition updateCartInformation (w : World) : World :=
  invoke (getCartSummary (resolvedEffectiveAccountId (this w))) w.

(** [set effectiveAccountId(newId)]. *)
Definition set_effectiveAccountId (newId : option string) (w : World) : World :=
  updateCartInformation (update (with_effectiveAccountId newId) w).

(** [set recordId(value)]. *)
Definition set_recordId (value : option string) (w : World) : World :=
  let w := update (with_recordId value) w in
  let w := update (with_landingRecordId value) w in
  triggerProductSearch w.

(** [set term(value)]: the search is guarded by [if (value)]. *)
Definition set_term (value : option string) (w : World) : World :=
  let w := update (with_term value) w in
  if truthy (prop value) then triggerProductSearch w else w.

(** [set cardContentMapping(value)]. *)
Definition set_cardContentMapping (value : option string) (w : World) : World :=
  update (with_cardContentMapping value) w.

(** [connectedCallback()]. *)
Definition connectedCallback (w : World) : World :=
  updateCartInformation w.

(** [handleClearAll()]; the call into the filter child component leaves
    this component untouched. *)
Definition handleClearAll (w : World) : World :=
  let w := update (with_refinements []) w in
  let w := update (with_recordId (_landingRecordId (this w))) w in
  let w := update (with_pageNumber 1) w in
  triggerProductSearch w.

(** [handlePreviousPage(evt)]. *)
Definition handlePreviousPage (w : World) : World :=
  let w := update (with_pageNumber (_pageNumber (this w) - 1)) w in
  triggerProductSearch w.

(** [handleNextPage(evt)]. *)
Definition handleNextPage (w : World) : World :=
  let w := update (with_pageNumber (_pageNumber (this w) + 1)) w in
  triggerProductSearch w.

(** [handleFacetValueUpdate(evt)], with [evt.detail.refinements]. *)
Definition handleFacetValueUpdate (refinements : list Refinement) (w : World) : World :=
  let w := update (with_refinements refinements) w in
  let w := update (with_pageNumber 1) w in
  triggerProductSearch w.

(** [handleCategoryUpdate(evt)], with [evt.detail.categoryId]. *)
Definition handleCategoryUpdate (categoryId : option string) (w : World) : World :=
  let w := update (with_recordId categoryId) w in
  let w := update (with_pageNumber 1) w in
  triggerProductSearch w.

(** [closeComparingModal()]: [cleanCache()] is called with a [catch]
    callback that only logs; the two assignments follow at once. *)
Definition closeComparingModal (w : World) : World :=
  let w := invoke cleanCache w in
  let w := update (with_idsToCompare (Some "")) w in
  update (with_isComparingModalOpen false) w.

(** *** Settling promises *)

Section Coordinator.

(** What [productSearch] resolves with. *)
Variable SearchResult : Type.

(** [transformData] of [./dataNormalizer], which the component imports. *)
Variable transformData : SearchResult -> option string -> DisplayData.t.

(** [set displayData(data)]. *)
Definition set_displayData (data : SearchResult) (w : World) : World :=
  update (with_displayData
            (Some (transformData data (_cardContentMapping (this w))))) w.

Inductive ApexValue : Type :=
| SearchPage (result : SearchResult)
| Summary (result : CartSummary.t)
| Void.

Inductive Settlement : Type :=
| Resolved (v : ApexValue)
| Rejected (e : string).

(** The callbacks chained on each call.  A promise only resolves with
    the kind of value its controller returns. *)
Definition continuation (a : ApexCall) (s : Settlement) (w : World) : option World :=
  match a, s with
  | productSearch _ _, Resolved (SearchPage result) =>
      let w := set_displayData result w in
      Some (update (with_isLoading false) w)
  | productSearch _ _, Rejected e =>
      let w := update (with_error (Some e)) w in
      Some (update (with_isLoading false) w)
  | getCartSummary _, Resolved (Summary result) =>
      Some (update (with_cartSummary (Some result)) w)
  | getCartSummary _, Rejected _ => Some w
  | cleanCache, Resolved Void => Some w
  | cleanCache, Rejected _ => Some w
  | _, _ => None
  end.

(** The promise of the [i]-th call settles: it must exist and be
    pending; it is marked settled and its callback runs. *)
Definition settle (i : nat) (s : Settlement) (w : World) : option World :=
  p ← promises w !! i;
  if settled p then None
  else continuation (call p) s
         (mkWorld (this w) (<[i := mkPromise (call p) true]> (promises w))).

(** What the platform can do to the component between two tasks of the
    event loop. *)
Inductive Event : Type :=
| SetEffectiveAccountId (newId : option string)
| SetRecordId (value : option string)
| SetTerm (value : option string)
| SetCardContentMapping (value : option string)
| ConnectedCallback
| ClearAll
| PreviousPage
| NextPage
| FacetValueUpdate (refinements : list Refinement)
| CategoryUpdate (categoryId : option string)
| CloseComparingModal
| Settle (i : nat) (s : Settlement).

Definition step (w : World) (e : Event) : option World :=
  match e with
  | SetEffectiveAccountId newId => Some (set_effectiveAccountId newId w)
  | SetRecordId value => Some (set_recordId value w)
  | SetTerm value => Some (set_term value w)
  | SetCardContentMapping value => Some (set_cardContentMapping value w)
  | ConnectedCallback => Some (connectedCallback w)
  | ClearAll => Some (handleClearAll w)
  | PreviousPage => Some (handlePreviousPage w)
  | NextPage => Some (handleNextPage w)
  | FacetValueUpdate refinements => Some (handleFacetValueUpdate refinements w)
  | CategoryUpdate categoryId => Some (handleCategoryUpdate categoryId w)
  | CloseComparingModal => Some (closeComparingModal w)
  | Settle i s => settle i s w
  end.

Fixpoint run (w : World) (es : list Event) : option World :=
  match es with
  | [] => Some w
  | e :: es => w' ← step w e; run w' es
  end.

End Coordinator.

Arguments SearchPage {SearchResult} result.
Arguments Summary {SearchResult} result.
Arguments Void {SearchResult}.
Arguments Resolved {SearchResult} v.
Arguments Rejected {SearchResult} e.
Arguments SetEffectiveAccountId {SearchResult} newId.
Arguments SetRecordId {SearchResult} value.
Arguments SetTerm {SearchResult} value.
Arguments SetCardContentMapping {SearchResult} value.
Arguments ConnectedCallback {SearchResult}.
Arguments ClearAll {SearchResult}.
Arguments PreviousPage {SearchResult}.
Arguments NextPage {SearchResult}.
Arguments FacetValueUpdate {SearchResult} refinements.
Arguments CategoryUpdate {SearchResult} categoryId.
Arguments CloseComparingModal {SearchResult}.
Arguments Settle {SearchResult} i s.
Arguments set_displayData {SearchResult} transformData data w.
Arguments continuation {SearchResult} transformData a s w.
Arguments settle {SearchResult} transformData i s w.
Arguments step {SearchResult} transformData w e.
Arguments run {SearchResult} transformData w es.

End SearchResults.

(** ** Vocabulary of the specification

    Notions that the specification speaks of and that the components do
    not compute themselves. *)

Module Spec.
Import JS SearchResults.

(** A price is present when the property holds a non-empty string. *)
Definition present (o : option string) : Prop :=
  exists s, o = Some s /\ s <> "".

Definition isSearch (p : Promise) : bool :=
  match call p with
  | productSearch _ _ => true
  | _ => false
  end.

(** The number of [productSearch] calls made so far. *)
Definition searchesIssued (w : World) : nat :=
  length (filter (fun p => isSearch p = true) (promises w)).

Fixpoint latestSearchFrom (i : nat) (ps : list Promise) (latest : option nat) : option nat :=
  match ps with
  | [] => latest
  | p :: ps => latestSearchFrom (S i) ps (if isSearch p then Some i else latest)
  end.

(** The position of the most recently issued search, if any. *)
Definition latestSearch (w : World) : option nat :=
  latestSearchFrom 0 (promises w) None.

(** The query that the most recent call of the component carried. *)
Definition lastQuery (w : World) : option SearchQuery.t :=
  match last (promises w) with
  | Some (mkPromise (productSearch q _) _) => Some q
  | _ => None
  end.

(** The header text as the specification words it:
    ["{start}-{end} of {total} Items"], ["1 Result"] or the empty text. *)
Definition headerText_spec (total pageSize page : Z) : string :=
  if (1 <? total)%Z then
    let start := (page - 1) * pageSize + 1 in
    let end_ := Z.min (start + pageSize - 1) total in
    pretty start +:+ "-" +:+ pretty end_ +:+ " of " +:+ pretty total +:+ " Items"
  else if (total =? 1)%Z then "1 Result"
  else "".

(** The page shown after a run of events, read off the events alone:
    every resolved search replaces the page, in the order of arrival,
    using the card mapping in force at that moment. *)
Fixpoint pageAfter {R : Type} (transformData : R -> option string -> DisplayData.t)
    (mapping : option string) (shown : option DisplayData.t)
    (es : list (Event R)) : option DisplayData.t :=
  match es with
  | [] => shown
  | SetCardContentMapping value :: es => pageAfter transformData value shown es
  | Settle _ (Resolved (SearchPage result)) :: es =>
      pageAfter transformData mapping (Some (transformData result mapping)) es
  | _ :: es => pageAfter transformData mapping shown es
  end.

(** A product that has neither prices nor image nor fields. *)
Definition unpricedProduct : SearchCard.Product.t :=
  SearchCard.Product.mk "01t000000000001" "Widget" None None None.

(** A product with a name and one more field. *)
Definition labelledProduct : SearchCard.Product.t :=
  SearchCard.Product.mk "01t000000000002" "Gadget" None
    (Some [SearchCard.Field.mk "Name" "Gadget";
           SearchCard.Field.mk "StockKeepingUnit" "G-200"])
    (Some (SearchCard.Pricing.mk (Some "12.00") (Some "9.50") (Some "USD"))).

(** A component holding a received page, at a given page number. *)
Definition showing (total pageSize page : Z) : Component :=
  with_pageNumber page
    (with_displayData (Some (DisplayData.mk total pageSize [])) newComponent).

(** The comparison modal is closed and no product id is kept. *)
Definition comparisonClosed (w : World) : Prop :=
  isComparingModalOpen (this w) = false /\ idsToCompare (this w) = Some "".

(** The ways a [productSearch] promise can settle. *)
Definition settlesSearch {R : Type} (s : Settlement R) : bool :=
  match s with
  | Resolved (SearchPage _) => true
  | Rejected _ => true
  | _ => false
  end.

(** Two pages of a catalogue of 45 products, 25 to a page. *)
Definition secondPage : DisplayData.t :=
  DisplayData.mk 45 25
    [SearchCard.Product.mk "01t000000000026" "Item 26" None None None].
Definition thirdPage : DisplayData.t := DisplayData.mk 45 25 [].

(** The 0-based page that a call asked for, if it is a search. *)
Definition requestedPage (p : Promise) : option Z :=
  match call p with
  | productSearch q _ => Some (SearchQuery.page q)
  | _ => None
  end.

(** A normalizer that keeps the page as it was received, to run the
    coordinator on concrete responses. *)
Definition keepPage (data : DisplayData.t) (mapping : option string) : DisplayData.t :=
  data.

(** The user pages forward twice; the answer to the second request
    arrives first, the answer to the first request arrives last. *)
Definition racedPaging : list (Event DisplayData.t) :=
  [NextPage; NextPage;
   Settle 1 (Resolved (SearchPage thirdPage));
   Settle 0 (Resolved (SearchPage secondPage))].

End Spec.

(** ** The layout side of the card (SearchCard) *)

Module CardLayout.
Import JS.

(** typedef [CardConfig]. *)
Module CardConfig.
Record t : Type := mk {
  showImage : JSValue;
  resultsLayout : option string;
  actionDisabled : JSValue
}.
End CardConfig.

(** [get showImage()]: [!!(this.config || {}).showImage]. *)
Definition showImage (config : option CardConfig.t) : bool :=
  truthy match config with
         | Some c => CardConfig.showImage c
         | None => JSUndefined
         end.

(** [get actionDisabled()]: [!!(this.config || {}).actionDisabled]. *)
Definition actionDisabled (config : option CardConfig.t) : bool :=
  truthy match config with
         | Some c => CardConfig.actionDisabled c
         | None => JSUndefined
         end.

(** [get cardContainerClass()]: [this.config.resultsLayout === 'grid'],
    with no fallback for a missing [config]. *)
Definition cardContainerClass (config : option CardConfig.t) : JSResult string :=
  match config with
  | None => Throw (TypeError "Cannot read properties of undefined")
  | Some c =>
      Ok match CardConfig.resultsLayout c with
         | Some layout =>
             if String.eqb layout "grid" then "slds-box card-layout-grid"
             else "card-layout-list"
         | None => "card-layout-list"
         end
  end.

End CardLayout.

(** ** The view side of the search results (SearchResults) *)

Module ResultsView.
Import JS SearchResults.

(** The object built by [get config()]. *)
Module LayoutConfig.
Record t : Type := mk {
  resultsLayout : option string;
  cardConfig : CardLayout.CardConfig.t
}.
End LayoutConfig.

Module Config.
Record t : Type := mk {
  layoutConfig : LayoutConfig.t
}.
End Config.

(** [get config()]; [resultsLayout] and [showProductImage] are the two
    public properties set by the page builder. *)
Definition config (resultsLayout : option string) (showProductImage : JSValue)
    (c : Component) : Config.t :=
  {| Config.layoutConfig :=
       {| LayoutConfig.resultsLayout := resultsLayout;
          LayoutConfig.cardConfig :=
            {| CardLayout.CardConfig.showImage := showProductImage;
               CardLayout.CardConfig.resultsLayout := resultsLayout;
               CardLayout.CardConfig.actionDisabled := JSBool (isCartLocked c) |} |} |}.


End ResultsView.

(** ** The product list table (CustomProductList) *)

Module CustomProductList.
Import JS.

Section Rows.

(** A row of the table, of which the component reads [row.id] only. *)
Variable Row : Type.
Variable rowId : Row -> string.

(** The two fields that the row handlers use.  Neither is declared in
    the class: both are [undefined] until assigned. *)
Record Component : Type := mkComponent {
  data : option (list Row);
  record : option Row
}.

(** The callback passed to [this.data.some]: stops at the first row
    whose id is [id] and keeps its index. *)
Fixpoint someFrom (index : nat) (rows : list Row) (id : string) : Z :=
  match rows with
  | [] => -1
  | row :: rows =>
      if String.eqb (rowId row) id then Z.of_nat index
      else someFrom (S index) rows id
  end.

(** [findRowIndexById(id)]. *)
Definition findRowIndexById (id : string) (c : Component) : JSResult Z :=
  match data c with
  | None => Throw (TypeError "Cannot read properties of undefined")
  | Some rows => Ok (someFrom 0 rows id)
  end.

(** [deleteRow(row)]. *)
Definition deleteRow (row : Row) (c : Component) : JSResult Component :=
  index ← findRowIndexById (rowId row) c;
  if (index =? -1)%Z then Ok c
  else
    match data c with
    | None => Throw (TypeError "Cannot read properties of undefined")
    | Some rows =>
        Ok (mkComponent
              (Some (take (Z.to_nat index) rows
                       ++ drop (Z.to_nat (index + 1)) rows)%list)
              (record c))
    end.

(** [showRowDetails(row)]. *)
Definition showRowDetails (row : Row) (c : Component) : Component :=
  mkComponent (data c) (Some row).

(** [handleRowAction(event)], with [event.detail.action.name] and
    [event.detail.row]. *)
Definition handleRowAction (actionName : string) (row : Row) (c : Component)
    : JSResult Component :=
  if String.eqb actionName "delete" then deleteRow row c
  else if String.eqb actionName "show_details" then Ok (showRowDetails row c)
  else Ok c.

End Rows.

Arguments mkComponent {Row} data record.
Arguments data {Row} c.
Arguments record {Row} c.
Arguments someFrom {Row} rowId index rows id.
Arguments findRowIndexById {Row} rowId id c.
Arguments deleteRow {Row} rowId row c.
Arguments showRowDetails {Row} row c.
Arguments handleRowAction {Row} rowId actionName row c.

End CustomProductList.

(** ** What a run of events leaves behind

    Quantities read off a list of events or off the list of calls, used
    to state what the search results component keeps true along a run. *)

Module Trace.
Import JS SearchResults.

(** The landing category: the value of the last [recordId] assignment. *)
Fixpoint landingAfter {R : Type} (landing : option string) (es : list (Event R))
    : option string :=
  match es with
  | [] => landing
  | SetRecordId value :: es => landingAfter value es
  | _ :: es => landingAfter landing es
  end.


(** An account id as [resolvedEffectiveAccountId] hands it out. *)
Definition resolvedAccount (account : option string) : Prop :=
  account <> Some "" /\ account <> Some "000000000000000".

(** What every call of the component looks like. *)
Definition wellFormedCall (a : ApexCall) : Prop :=
  match a with
  | productSearch q account =>
      SearchQuery.includePrices q = true
      /\ SearchQuery.includeQuantityRule q = true
      /\ resolvedAccount account
  | getCartSummary account => resolvedAccount account
  | cleanCache => True
  end.

(** Some search has been issued and has not settled yet. *)
Definition searchInFlight (w : World) : Prop :=
  exists i p, promises w !! i = Some p
              /\ Spec.isSearch p = true /\ settled p = false.

(** [Number] on the two price texts of [Spec.labelledProduct], as
    binary64 values (12 and 9.5); NaN elsewhere. *)
Definition sampleNumber (v : JSValue) : spec_float :=
  match v with
  | JSString s =>
      if String.eqb s "12.00" then S754_finite false 6755399441055744 (-49)
      else if String.eqb s "9.50" then S754_finite false 5348024557502464 (-49)
      else S754_nan
  | _ => S754_nan
  end.

(** A visit: the placeholder account is set, the component mounts, a
    category is opened, the search box is emptied, a facet and another
    category are picked, the first cart refresh fails, the filters are
    cleared and the comparison modal is closed. *)
Definition browsing : list (Event DisplayData.t) :=
  [SetEffectiveAccountId (Some "000000000000000");
   ConnectedCallback;
   SetRecordId (Some "0ZGlanding");
   SetTerm (Some "");
   FacetValueUpdate ["colour: red"];
   CategoryUpdate (Some "0ZGother");
   Settle 0 (Rejected "network error");
   ClearAll;
   CloseComparingModal].

(** A failed search followed by a successful one. *)
Definition failThenSucceed : list (Event DisplayData.t) :=
  [NextPage;
   Settle 0 (Rejected "network error");
   NextPage;
   Settle 1 (Resolved (SearchPage Spec.thirdPage))].

(** A table row with an id and a label, to run the table on. *)
Definition sampleRows : list (string * string) :=
  [("a1", "Anvil"); ("b2", "Bolt"); ("a1", "Anvil, again"); ("c3", "Cog")].

End Trace.

(** ** Properties of the product card *)

Module CardTheory.
Import JS SearchCard.

Lemma truthy_prop_present (o : option string) :
  truthy (prop o) = true <-> Spec.present o.
Proof.
  unfold Spec.present. destruct o as [s|]; simpl.
  - destruct (String.eqb_spec s ""); simpl; split.
    + discriminate.
    + intros (s' & [= <-] & Hne). contradiction.
    + intros _. eauto.
    + reflexivity.
  - split; [discriminate | intros (s & [=] & _)].
Qed.

(** [a && b] is truthy exactly when both operands are. *)
Lemma truthy_and_then (a : JSValue) (b : unit -> JSValue) :
  truthy (and_then a b) = truthy a && truthy (b tt).
Proof.
  unfold and_then. destruct (truthy a) eqn:Ha.
  - reflexivity.
  - rewrite Ha. reflexivity.
Qed.

(** [a || b] is truthy exactly when one operand is. *)
Lemma truthy_or_else (a : JSValue) (b : unit -> JSValue) :
  truthy (or_else a b) = truthy a || truthy (b tt).
Proof.
  unfold or_else. destruct (truthy a) eqn:Ha.
  - rewrite Ha. reflexivity.
  - reflexivity.
Qed.

(** IEEE comparison is irreflexive: no number is greater than itself. *)
Lemma num_gt_irrefl (x : spec_float) : num_gt x x = false.
Proof.
  unfold num_gt, SFltb.
  destruct x as [s|s| |s m e]; simpl; try reflexivity.
  - destruct s; reflexivity.
  - change (Pos.compare_cont Eq m m) with (m ?= m)%positive.
    rewrite Z.compare_refl, Pos.compare_refl. destruct s; reflexivity.
Qed.

(** Two numbers that compare equal are not greater than one another. *)
Lemma num_gt_of_eq (x y : spec_float) :
  SFeqb x y = true -> num_gt x y = false.
Proof.
  unfold num_gt, SFeqb, SFltb.
  destruct x as [s1|s1| |s1 m1 e1], y as [s2|s2| |s2 m2 e2]; simpl;
    try reflexivity; try discriminate;
    try (destruct s1, s2; simpl; reflexivity || discriminate).
  change (Pos.compare_cont Eq m1 m2) with (m1 ?= m2)%positive.
  change (Pos.compare_cont Eq m2 m1) with (m2 ?= m1)%positive.
  destruct s1, s2; simpl; try discriminate;
    destruct (Z.compare_spec e1 e2) as [->| |]; simpl; try discriminate;
    rewrite Z.compare_refl;
    destruct (Pos.compare_spec m1 m2) as [->| |]; simpl; try discriminate;
    rewrite Pos.compare_refl; reflexivity.
Qed.

Lemma readPrices_some (displayData : Product.t) (p : Pricing.t) :
  Product.prices displayData = Some p -> readPrices displayData = Ok p.
Proof. unfold readPrices. intros ->. reflexivity. Qed.

Lemma readPrices_none (displayData : Product.t) :
  Product.prices displayData = None -> throws (readPrices displayData).
Proof. unfold readPrices, throws. intros ->. eauto. Qed.

(** With a [prices] object every price getter returns. *)
Lemma price_getters_return (Number : JSValue -> spec_float)
    (displayData : Product.t) (p : Pricing.t) :
  Product.prices displayData = Some p ->
  returns (price displayData) /\ returns (hasPrice displayData)
  /\ returns (listingPrice displayData)
  /\ returns (canShowListingPrice Number displayData)
  /\ returns (currency displayData).
Proof.
  intros Hp. unfold returns, price, hasPrice, price, listingPrice,
    canShowListingPrice, currency.
  rewrite (readPrices_some _ _ Hp). simpl. repeat split; eauto.
Qed.

(** C2: on a card that has a [prices] object, [canShowListingPrice]
    returns a value that is truthy exactly when the negotiated price and
    the listing price are both present (non-empty) and
    [Number(listingPrice) > Number(negotiatedPrice)]; equal listing and
    negotiated prices, as texts or as numbers, give a falsy value. *)
Theorem canShowListingPrice_iff (Number : JSValue -> spec_float)
    (id name : string) (image : option Image.t)
    (fields : option (list Field.t)) (prices : Pricing.t) :
  exists v,
    canShowListingPrice Number (Product.mk id name image fields (Some prices)) = Ok v
    /\ (truthy v = true <->
          Spec.present (Pricing.negotiatedPrice prices)
          /\ Spec.present (Pricing.listingPrice prices)
          /\ num_gt (Number (prop (Pricing.listingPrice prices)))
                    (Number (prop (Pricing.negotiatedPrice prices))) = true)
    /\ (Pricing.listingPrice prices = Pricing.negotiatedPrice prices ->
          truthy v = false)
    /\ (SFeqb (Number (prop (Pricing.listingPrice prices)))
              (Number (prop (Pricing.negotiatedPrice prices))) = true ->
          truthy v = false).
Proof.
  destruct prices as [lp np cur]. unfold canShowListingPrice. simpl.
  eexists. split; [reflexivity|].
  rewrite !truthy_and_then. cbn [Pricing.negotiatedPrice Pricing.listingPrice truthy].
  pose proof (truthy_prop_present np) as Hn.
  pose proof (truthy_prop_present lp) as Hl.
  split; [|split].
  - rewrite !andb_true_iff. tauto.
  - intros ->. rewrite num_gt_irrefl. apply andb_false_r.
  - intros H. rewrite (num_gt_of_eq _ _ H). apply andb_false_r.
Qed.

(** C4: on a product that has no [prices] entry the getters [image] and
    [fields] fall back on an empty structure, but [price], [hasPrice],
    [listingPrice], [canShowListingPrice] and [currency] raise. *)
Theorem price_getters_throw_without_prices (Number : JSValue -> spec_float) :
  image Spec.unpricedProduct = Image.empty
  /\ fields Spec.unpricedProduct = []
  /\ throws (price Spec.unpricedProduct)
  /\ throws (hasPrice Spec.unpricedProduct)
  /\ throws (listingPrice Spec.unpricedProduct)
  /\ throws (canShowListingPrice Number Spec.unpricedProduct)
  /\ throws (currency Spec.unpricedProduct).
Proof.
  unfold throws. repeat split; simpl; eauto.
Qed.

Lemma fields_length (displayData : Product.t) :
  length (fields displayData)
  = length (default [] (Product.fields displayData)).
Proof. unfold fields. apply length_imap. Qed.

Lemma formatField_unlabelled (i : nat) (f : Field.t) :
  Field.name f = "Name" \/ Field.name f = "Description" ->
  DisplayField.value (formatField i f) = Field.value f.
Proof.
  unfold formatField. simpl. intros [-> | ->]; reflexivity.
Qed.

Lemma formatField_labelled (i : nat) (f : Field.t) :
  Field.name f <> "Name" -> Field.name f <> "Description" ->
  DisplayField.value (formatField i f)
  = Field.name f +:+ ": " +:+ Field.value f.
Proof.
  unfold formatField. simpl. intros H1 H2.
  destruct (String.eqb_spec (Field.name f) "Name"); [contradiction|].
  destruct (String.eqb_spec (Field.name f) "Description"); [contradiction|].
  reflexivity.
Qed.

(** C5: the [i]-th entry built by [fields] carries the value of the
    [i]-th field verbatim when its name is [Name] or [Description], and
    the text [name: value] for every other name. *)
Theorem fields_formatted_value (displayData : Product.t)
    (fs : list Field.t) (i : nat) (f : Field.t) :
  Product.fields displayData = Some fs ->
  fs !! i = Some f ->
  exists d,
    fields displayData !! i = Some d
    /\ (Field.name f = "Name" \/ Field.name f = "Description" ->
          DisplayField.value d = Field.value f)
    /\ (Field.name f <> "Name" -> Field.name f <> "Description" ->
          DisplayField.value d = Field.name f +:+ ": " +:+ Field.value f).
Proof.
  intros Hfs Hi. exists (formatField i f). split; [|split].
  - unfold fields. rewrite Hfs. simpl.
    rewrite list_lookup_imap, Hi. reflexivity.
  - apply formatField_unlabelled.
  - apply formatField_labelled.
Qed.

(** C5 at work on the second field of a product. *)
Lemma fields_formatted_value_witness :
  exists d,
    fields Spec.labelledProduct !! 1%nat = Some d
    /\ (Field.name (Field.mk "StockKeepingUnit" "G-200") = "Name"
          \/ Field.name (Field.mk "StockKeepingUnit" "G-200") = "Description" ->
          DisplayField.value d = Field.value (Field.mk "StockKeepingUnit" "G-200"))
    /\ (Field.name (Field.mk "StockKeepingUnit" "G-200") <> "Name" ->
          Field.name (Field.mk "StockKeepingUnit" "G-200") <> "Description" ->
          DisplayField.value d
          = Field.name (Field.mk "StockKeepingUnit" "G-200") +:+ ": "
            +:+ Field.value (Field.mk "StockKeepingUnit" "G-200")).
Proof.
  apply (fields_formatted_value Spec.labelledProduct
           [Field.mk "Name" "Gadget"; Field.mk "StockKeepingUnit" "G-200"]
           1 (Field.mk "StockKeepingUnit" "G-200")); reflexivity.
Defined.

Example fields_labelledProduct :
  map DisplayField.value (fields Spec.labelledProduct)
  = ["Gadget"; "StockKeepingUnit: G-200"].
Proof. reflexivity. Qed.

End CardTheory.

(** ** Properties of the search results component *)

Module CoordinatorTheory.
Import JS SearchResults Spec.

(** *** Account resolution *)

Lemma length_pos_nonempty (s : string) :
  (0 <? String.length s)%nat = negb (String.eqb s "").
Proof. destruct s; reflexivity. Qed.

(** C8: the resolved account id is [null] when the input is absent,
    empty or the all-zero placeholder, and the input itself otherwise. *)
Theorem resolvedEffectiveAccountId_cases (c : Component) :
  resolvedEffectiveAccountId (with_effectiveAccountId None c) = None
  /\ resolvedEffectiveAccountId (with_effectiveAccountId (Some "") c) = None
  /\ resolvedEffectiveAccountId
       (with_effectiveAccountId (Some "000000000000000") c) = None
  /\ resolvedEffectiveAccountId
       (with_effectiveAccountId (Some "001xyz") c) = Some "001xyz"
  /\ (forall s : string,
        s <> "" -> s <> "000000000000000" ->
        resolvedEffectiveAccountId (with_effectiveAccountId (Some s) c) = Some s)
  /\ (forall s : string,
        _effectiveAccountId c = Some s ->
        resolvedEffectiveAccountId c
        = if decide (s = "" \/ s = "000000000000000") then None else Some s)
  /\ (_effectiveAccountId c = None -> resolvedEffectiveAccountId c = None).
Proof.
  assert (Hgen : forall s : string,
            s <> "" -> s <> "000000000000000" ->
            forall c', _effectiveAccountId c' = Some s ->
                       resolvedEffectiveAccountId c' = Some s).
  { intros s H1 H2 c' Hc. unfold resolvedEffectiveAccountId. rewrite Hc. simpl.
    rewrite length_pos_nonempty.
    destruct (String.eqb_spec s ""); [contradiction|].
    destruct (String.eqb_spec s "000000000000000"); [contradiction|].
    reflexivity. }
  repeat split; try reflexivity.
  - intros s H1 H2. apply Hgen; auto.
  - intros s Hc. destruct (decide (s = "" \/ s = "000000000000000")) as [[-> | ->]|Hn].
    + unfold resolvedEffectiveAccountId. rewrite Hc. reflexivity.
    + unfold resolvedEffectiveAccountId. rewrite Hc. reflexivity.
    + apply Hgen; auto.
  - intros Hc. unfold resolvedEffectiveAccountId. rewrite Hc. reflexivity.
Qed.

(** *** Header text *)

Example headerText_no_response : headerText newComponent = "".
Proof. reflexivity. Qed.

Example headerText_empty_page : headerText (showing 0 25 1) = "".
Proof. reflexivity. Qed.

Example headerText_single : headerText (showing 1 25 1) = "1 Result".
Proof. reflexivity. Qed.

Example headerText_second_page :
  headerText (showing 45 25 2) = "26 - 45 of 45 Items".
Proof. reflexivity. Qed.

(** C3, as the specification words it, fails: with 45 items, 25 to a
    page, on page 2, the component prints the range with a blank on each
    side of the hyphen, not the text of the worded format. *)
Lemma headerText_differs_from_worded_format :
  headerText (showing 45 25 2) = "26 - 45 of 45 Items"
  /\ headerText_spec 45 25 2 = "26-45 of 45 Items"
  /\ headerText (showing 45 25 2) <> headerText_spec 45 25 2.
Proof. repeat split. discriminate. Qed.

(** C3, amended: when a page has been received, the header text is
    [start - end of total Items] (blanks around the hyphen) with
    [start = (page-1)*pageSize+1] and [end = min(start+pageSize-1, total)]
    for a total above 1, [1 Result] for a total of 1, and empty for a
    total of 0. *)
Theorem headerText_cases (c : Component) (d : DisplayData.t) :
  _displayData c = Some d ->
  let total := DisplayData.total d in
  let pageSize := DisplayData.pageSize d in
  let start := (_pageNumber c - 1) * pageSize + 1 in
  let end_ := Z.min (start + pageSize - 1) total in
  (1 < total ->
     headerText c
     = pretty start +:+ " - " +:+ pretty end_ +:+ " of " +:+ pretty total
       +:+ " Items")
  /\ (total = 1 -> headerText c = "1 Result")
  /\ (total = 0 -> headerText c = "").
Proof.
  intros Hd. unfold headerText. rewrite Hd. cbv zeta.
  split; [|split].
  - intros Ht. apply Z.ltb_lt in Ht. rewrite Ht. reflexivity.
  - intros ->. reflexivity.
  - intros ->. reflexivity.
Qed.

(** The amended C3 at work on page 2 of 45 items. *)
Lemma headerText_cases_witness :
  (1 < 45 -> headerText (showing 45 25 2) = "26 - 45 of 45 Items")
  /\ (45 = 1 -> headerText (showing 45 25 2) = "1 Result")
  /\ (45 = 0 -> headerText (showing 45 25 2) = "").
Proof.
  exact (headerText_cases (showing 45 25 2) (DisplayData.mk 45 25 []) eq_refl).
Defined.

(** *** Calls made by the handlers *)

Lemma searchesIssued_update (f : Component -> Component) (w : World) :
  searchesIssued (update f w) = searchesIssued w.
Proof. reflexivity. Qed.

Lemma searchesIssued_invoke (a : ApexCall) (w : World) :
  searchesIssued (invoke a w)
  = (searchesIssued w + (if isSearch (mkPromise a false) then 1 else 0))%nat.
Proof.
  unfold searchesIssued, invoke. simpl.
  rewrite filter_app, length_app. f_equal.
  destruct a; reflexivity.
Qed.

Lemma searchesIssued_trigger (w : World) :
  searchesIssued (triggerProductSearch w) = S (searchesIssued w).
Proof.
  unfold triggerProductSearch. rewrite searchesIssued_invoke. simpl.
  rewrite searchesIssued_update. lia.
Qed.

(** Counts the searches behind a handler made of assignments and calls. *)
Ltac count_searches :=
  unfold set_effectiveAccountId, set_recordId, set_cardContentMapping,
    connectedCallback, updateCartInformation, handleClearAll,
    handlePreviousPage, handleNextPage, handleFacetValueUpdate,
    handleCategoryUpdate, closeComparingModal;
  cbv zeta;
  rewrite ?searchesIssued_trigger, ?searchesIssued_update,
    ?searchesIssued_invoke, ?searchesIssued_update;
  simpl; try lia.

Lemma lastQuery_trigger (w : World) :
  lastQuery (triggerProductSearch w)
  = Some (SearchQuery.mk (_term (this w)) (_recordId (this w))
            (_refinements (this w)) (_pageNumber (this w) - 1) true true).
Proof.
  unfold lastQuery, triggerProductSearch, invoke. simpl.
  rewrite last_snoc. reflexivity.
Qed.

Lemma isLoading_trigger (w : World) :
  _isLoading (this (triggerProductSearch w)) = true.
Proof. reflexivity. Qed.

(** C9, as stated, fails: assigning the empty text to [term] after a
    search for "shoes" changes the term and issues no search. *)
Lemma clearing_term_issues_no_search :
  let w := set_term (Some "shoes") newWorld in
  let w' := set_term (Some "") w in
  _term (this w) = Some "shoes"
  /\ _term (this w') = Some ""
  /\ searchesIssued w = 1%nat
  /\ searchesIssued w' = 1%nat.
Proof. repeat split. Qed.

(** C9, amended: the [recordId] setter and the facet, category, page and
    clear-all handlers each issue exactly one search, whether or not the
    value changes; the [term] setter issues exactly one search when the
    new term is a non-empty text and none when it is absent or empty. *)
Theorem searches_issued_per_assignment (w : World)
    (value : option string) (refinements : list Refinement) :
  searchesIssued (set_recordId value w) = S (searchesIssued w)
  /\ searchesIssued (handleCategoryUpdate value w) = S (searchesIssued w)
  /\ searchesIssued (handleFacetValueUpdate refinements w) = S (searchesIssued w)
  /\ searchesIssued (handlePreviousPage w) = S (searchesIssued w)
  /\ searchesIssued (handleNextPage w) = S (searchesIssued w)
  /\ searchesIssued (handleClearAll w) = S (searchesIssued w)
  /\ searchesIssued (set_term value w)
     = if truthy (prop value) then S (searchesIssued w) else searchesIssued w.
Proof.
  repeat split; try (count_searches; reflexivity).
  unfold set_term. cbv zeta. destruct (truthy (prop value)).
  - rewrite searchesIssued_trigger, searchesIssued_update. reflexivity.
  - apply searchesIssued_update.
Qed.

(** C10, as stated, fails: the [recordId] setter also changes the
    category, and it searches at the page the component is on.  On page
    3, assigning another category leaves the page number at 3 and asks
    for page 2 of the 0-based query. *)
Lemma recordId_setter_keeps_current_page :
  let w := handleNextPage (handleNextPage newWorld) in
  let w' := set_recordId (Some "0ZGother") w in
  _pageNumber (this w) = 3
  /\ _recordId (this w) = None
  /\ _recordId (this w') = Some "0ZGother"
  /\ _pageNumber (this w') = 3
  /\ lastQuery w'
     = Some (SearchQuery.mk None (Some "0ZGother") [] 2 true true).
Proof. repeat split. Qed.

(** C10, amended: [handleFacetValueUpdate] and [handleCategoryUpdate]
    leave the page number at 1, and the search they issue asks for the
    first page (page 0 of the 0-based query) of the new refinements or
    category; a category assigned through the [recordId] setter keeps
    the page number, and the search it issues asks for the current
    page. *)
Theorem facet_and_category_reset_page (w : World)
    (refinements : list Refinement) (categoryId : option string) :
  let wf := handleFacetValueUpdate refinements w in
  let wc := handleCategoryUpdate categoryId w in
  let wr := set_recordId categoryId w in
  (_pageNumber (this wf) = 1
   /\ searchesIssued wf = S (searchesIssued w)
   /\ exists q, lastQuery wf = Some q
                /\ SearchQuery.page q = 0
                /\ SearchQuery.refinements q = refinements)
  /\ (_pageNumber (this wc) = 1
      /\ searchesIssued wc = S (searchesIssued w)
      /\ exists q, lastQuery wc = Some q
                   /\ SearchQuery.page q = 0
                   /\ SearchQuery.categoryId q = categoryId)
  /\ (_pageNumber (this wr) = _pageNumber (this w)
      /\ searchesIssued wr = S (searchesIssued w)
      /\ exists q, lastQuery wr = Some q
                   /\ SearchQuery.page q = _pageNumber (this w) - 1
                   /\ SearchQuery.categoryId q = categoryId).
Proof.
  cbv zeta.
  unfold handleFacetValueUpdate, handleCategoryUpdate, set_recordId. cbv zeta.
  split; [|split]; (split; [reflexivity|]); (split;
    [rewrite searchesIssued_trigger, !searchesIssued_update; reflexivity|]);
    rewrite lastQuery_trigger; eexists; (split; [reflexivity|]);
    split; reflexivity.
Qed.

(** *** The comparison modal *)

Lemma promises_closeComparingModal (w : World) :
  promises (closeComparingModal w)
  = (promises w ++ [mkPromise cleanCache false])%list.
Proof. reflexivity. Qed.

Lemma settle_cleanCache {R : Type}
    (transformData : R -> option string -> DisplayData.t)
    (w : World) (s : Settlement R) :
  s = Resolved Void \/ (exists e, s = Rejected e) ->
  settle transformData (length (promises w)) s (closeComparingModal w)
  = Some (mkWorld (this (closeComparingModal w))
            (promises w ++ [mkPromise cleanCache true])).
Proof.
  intros Hs. unfold settle. rewrite promises_closeComparingModal.
  rewrite list_lookup_middle by reflexivity. simpl.
  replace (<[length (promises w) := mkPromise cleanCache true]>
             (promises w ++ [mkPromise cleanCache false])%list)
    with (promises w ++ [mkPromise cleanCache true])%list.
  - destruct Hs as [-> | [e ->]]; reflexivity.
  - rewrite insert_app_r_alt by lia. rewrite Nat.sub_diag. reflexivity.
Qed.

(** C7: right after [closeComparingModal] the modal is closed and the
    comparison ids are the empty text, and this still holds once the
    [cleanCache] call has settled, whether it succeeded or failed. *)
Theorem closeComparingModal_closes {R : Type}
    (transformData : R -> option string -> DisplayData.t)
    (w : World) (e : string) :
  let w1 := closeComparingModal w in
  let i := length (promises w) in
  comparisonClosed w1
  /\ (exists w2, settle transformData i (Resolved Void) w1 = Some w2
                 /\ comparisonClosed w2)
  /\ (exists w2, settle transformData i (Rejected e) w1 = Some w2
                 /\ comparisonClosed w2).
Proof.
  cbv zeta. split; [split; reflexivity|]. split.
  - eexists. split; [apply settle_cleanCache; left; reflexivity|].
    split; reflexivity.
  - eexists. split; [apply settle_cleanCache; right; eauto|].
    split; reflexivity.
Qed.

(** *** Responses and the displayed page *)

Section Arrival.

Context {R : Type} (transformData : R -> option string -> DisplayData.t).

(** What a settling promise does to the page and to the card mapping. *)
Lemma settle_page (i : nat) (s : Settlement R) (w w' : World) :
  settle transformData i s w = Some w' ->
  _cardContentMapping (this w') = _cardContentMapping (this w)
  /\ _displayData (this w')
     = match s with
       | Resolved (SearchPage result) =>
           Some (transformData result (_cardContentMapping (this w)))
       | _ => _displayData (this w)
       end.
Proof.
  unfold settle. destruct (promises w !! i) as [p|]; simpl; [|discriminate].
  destruct (settled p); [discriminate|].
  destruct (call p), s as [[r|c|]|e]; simpl; intros [= <-]; split; reflexivity.
Qed.

(** What a settling promise does to the loading flag. *)
Lemma settle_loading (i : nat) (s : Settlement R) (w w' : World) (p : Promise) :
  promises w !! i = Some p ->
  settle transformData i s w = Some w' ->
  _isLoading (this w') = if isSearch p then false else _isLoading (this w).
Proof.
  unfold settle, isSearch. intros ->. simpl.
  destruct (settled p); [discriminate|].
  destruct (call p), s as [[r|c|]|e]; simpl; intros [= <-]; reflexivity.
Qed.

(** A pending search can settle in both ways. *)
Lemma settle_search_enabled (i : nat) (s : Settlement R) (w : World) (p : Promise) :
  promises w !! i = Some p ->
  isSearch p = true -> settled p = false -> settlesSearch s = true ->
  exists w', settle transformData i s w = Some w'.
Proof.
  unfold settle, isSearch, settlesSearch. intros -> Hs Hp. simpl.
  rewrite Hp. destruct (call p); try discriminate.
  destruct s as [[r|c|]|e]; try discriminate; simpl; eauto.
Qed.

(** Replacing a promise by one of the same kind keeps the count of
    searches. *)
Lemma searches_after_marking (ps : list Promise) (i : nat) (p q : Promise) :
  ps !! i = Some p ->
  isSearch q = isSearch p ->
  length (filter (fun x => isSearch x = true) (<[i := q]> ps))
  = length (filter (fun x => isSearch x = true) ps).
Proof.
  intros Hi Hq. revert i Hi.
  induction ps as [|x ps IH]; intros [|i]; simpl; try discriminate.
  - intros [= ->]. rewrite !filter_cons, Hq.
    destruct (decide (isSearch p = true)); reflexivity.
  - intros Hi. rewrite !filter_cons.
    destruct (decide (isSearch x = true)); simpl; rewrite (IH i Hi); reflexivity.
Qed.

(** A settling promise issues no search. *)
Lemma settle_searchesIssued (i : nat) (s : Settlement R) (w w' : World) :
  settle transformData i s w = Some w' -> searchesIssued w' = searchesIssued w.
Proof.
  unfold settle. destruct (promises w !! i) as [p|] eqn:Hp; simpl; [|discriminate].
  destruct (settled p); [discriminate|].
  assert (Hmark : searchesIssued
                    (mkWorld (this w)
                       (<[i := mkPromise (call p) true]> (promises w)))
                  = searchesIssued w).
  { unfold searchesIssued. simpl.
    apply (searches_after_marking _ _ p); [exact Hp | reflexivity]. }
  revert Hmark. generalize (<[i := mkPromise (call p) true]> (promises w)).
  intros ps Hmark.
  destruct (call p), s as [[r|c|]|e]; simpl; intros [= <-]; exact Hmark.
Qed.

(** Whenever an event makes the component issue a search, the loading
    flag is up when the handler returns. *)
Lemma search_issue_raises_loading (e : Event R) (w w' : World) :
  step transformData w e = Some w' ->
  searchesIssued w' <> searchesIssued w ->
  _isLoading (this w') = true.
Proof.
  destruct e as [newId|value|value|value| | | | |refinements|categoryId| |i s];
    simpl.
  - intros [= <-] Hne. contradict Hne. count_searches.
  - intros [= <-] _. reflexivity.
  - unfold set_term. cbv zeta. destruct (truthy (prop value));
      intros [= <-] Hne; [reflexivity | contradict Hne; reflexivity].
  - intros [= <-] Hne. contradict Hne. reflexivity.
  - intros [= <-] Hne. contradict Hne. count_searches.
  - intros [= <-] _. reflexivity.
  - intros [= <-] _. reflexivity.
  - intros [= <-] _. reflexivity.
  - intros [= <-] _. reflexivity.
  - intros [= <-] _. reflexivity.
  - intros [= <-] Hne. contradict Hne. count_searches.
  - intros Hs Hne. contradict Hne. eapply settle_searchesIssued, Hs.
Qed.

(** Whatever the normalizer, when the answer to the first of two page
    requests arrives after the answer to the second, the page built from
    the first answer is the one left on display. *)
Lemma older_answer_stays (older newer : R) :
  exists w,
    run transformData newWorld
      [NextPage; NextPage;
       Settle 1 (Resolved (SearchPage newer));
       Settle 0 (Resolved (SearchPage older))] = Some w
    /\ latestSearch w = Some 1%nat
    /\ _displayData (this w) = Some (transformData older None).
Proof. eexists. repeat split. Qed.

(** One event changes the page and the mapping as [pageAfter] says. *)
Lemma step_page (e : Event R) (es : list (Event R)) (w w' : World) :
  step transformData w e = Some w' ->
  pageAfter transformData (_cardContentMapping (this w))
    (_displayData (this w)) (e :: es)
  = pageAfter transformData (_cardContentMapping (this w'))
      (_displayData (this w')) es.
Proof.
  destruct e; simpl; try (intros [= <-]; reflexivity).
  - unfold set_term. cbv zeta. destruct (truthy (prop value));
      intros [= <-]; reflexivity.
  - intros Hs. destruct (settle_page _ _ _ _ Hs) as [-> ->].
    destruct s as [[r|c|]|err]; reflexivity.
Qed.

(** C1, amended: responses are applied in the order they arrive.  After
    any run of events the displayed page is the one built from the
    search response that resolved last, whatever the order in which the
    searches were issued; no response is discarded. *)
Theorem displayData_follows_arrival (w : World) (es : list (Event R)) (w' : World) :
  run transformData w es = Some w' ->
  _displayData (this w')
  = pageAfter transformData (_cardContentMapping (this w))
      (_displayData (this w)) es.
Proof.
  revert w. induction es as [|e es IH]; intros w.
  - intros [= <-]. reflexivity.
  - cbn [run]. destruct (step transformData w e) as [w1|] eqn:Hstep;
      intros Hrun; [|discriminate Hrun].
    rewrite (step_page e es w w1 Hstep). apply IH, Hrun.
Qed.

(** What the two callbacks of [triggerProductSearch] do to the loading
    flag: every issued search raises it, and the settling of any pending
    search lowers it, by success or by failure, whether or not that
    search is the latest one issued. *)
Theorem loading_lowered_by_any_settle (w : World) (i : nat) (p : Promise)
    (s : Settlement R) :
  promises w !! i = Some p ->
  isSearch p = true -> settled p = false -> settlesSearch s = true ->
  _isLoading (this (triggerProductSearch w)) = true
  /\ (forall (e : Event R) (w1 : World),
        step transformData w e = Some w1 ->
        searchesIssued w1 <> searchesIssued w ->
        _isLoading (this w1) = true)
  /\ exists w', settle transformData i s w = Some w'
                /\ _isLoading (this w') = false.
Proof.
  intros Hp Hsearch Hpending Hs. split; [reflexivity|]. split.
  - intros e w1. apply search_issue_raises_loading.
  - destruct (settle_search_enabled i s w p Hp Hsearch Hpending Hs) as [w' Hw'].
    exists w'. split; [exact Hw'|].
    rewrite (settle_loading i s w w' p Hp Hw'), Hsearch. reflexivity.
Qed.

End Arrival.

Example racedPaging_runs :
  exists w, run keepPage newWorld racedPaging = Some w
            /\ _displayData (this w) = Some secondPage.
Proof. eexists. split; reflexivity. Qed.

(** C1, as stated, fails: two searches are issued (for pages 2 and 3);
    the response to the latest one arrives and is shown; the response to
    the older one arrives afterwards and replaces it. *)
Lemma stale_response_overwrites_newer :
  exists w1 w2 w3,
    run keepPage newWorld [NextPage; NextPage] = Some w1
    /\ map requestedPage (promises w1) = [Some 1; Some 2]
    /\ latestSearch w1 = Some 1%nat
    /\ settle keepPage 1 (Resolved (SearchPage thirdPage)) w1 = Some w2
    /\ _displayData (this w2) = Some thirdPage
    /\ settle keepPage 0 (Resolved (SearchPage secondPage)) w2 = Some w3
    /\ latestSearch w3 = Some 1%nat
    /\ _displayData (this w3) = Some secondPage
    /\ secondPage <> thirdPage.
Proof.
  do 3 eexists. repeat split; try reflexivity. discriminate.
Qed.

(** The amended C1 at work on the raced paging. *)
Lemma displayData_follows_arrival_witness :
  _displayData (this (default newWorld (run keepPage newWorld racedPaging)))
  = pageAfter keepPage (_cardContentMapping (this newWorld))
      (_displayData (this newWorld)) racedPaging.
Proof.
  apply (displayData_follows_arrival keepPage newWorld racedPaging
           (default newWorld (run keepPage newWorld racedPaging))).
  reflexivity.
Defined.

(** C6: the loading flag is to be lowered by the settling of the
    latest search only, and the getter [isLoading] is documented as
    telling whether a product search is executing and waiting for its
    result.  The component does otherwise: with two searches in flight,
    the failure of the older one lowers the flag while the latest search
    is still pending. *)
Lemma stale_settle_lowers_loading :
  exists w1 w2,
    run keepPage newWorld [NextPage; NextPage] = Some w1
    /\ _isLoading (this w1) = true
    /\ latestSearch w1 = Some 1%nat
    /\ settle keepPage 0 (Rejected "network error") w1 = Some w2
    /\ map settled (promises w2) = [true; false]
    /\ _isLoading (this w2) = false.
Proof.
  do 2 eexists. repeat split; reflexivity.
Qed.

(** The callbacks at work: two searches in flight, the older one fails. *)
Lemma loading_lowered_by_any_settle_witness :
  _isLoading (this (triggerProductSearch
                      (handleNextPage (handleNextPage newWorld)))) = true
  /\ (forall (e : Event DisplayData.t) (w1 : World),
        step keepPage (handleNextPage (handleNextPage newWorld)) e = Some w1 ->
        searchesIssued w1
        <> searchesIssued (handleNextPage (handleNextPage newWorld)) ->
        _isLoading (this w1) = true)
  /\ exists w', settle keepPage 0 (Rejected "network error")
                  (handleNextPage (handleNextPage newWorld)) = Some w'
                /\ _isLoading (this w') = false.
Proof.
  apply (loading_lowered_by_any_settle keepPage
           (handleNextPage (handleNextPage newWorld)) 0
           (mkPromise (productSearch
                         (SearchQuery.mk None None [] 1 true true) None) false)
           (Rejected "network error")); reflexivity.
Defined.

End CoordinatorTheory.

(** ** Further properties of the product card *)

Module CardFacts.
Import JS SearchCard.

(** Past the first position no entry is a tab stop. *)
Lemma no_tab_stop_later (g : nat -> nat) (fs : list Field.t) :
  (forall i, g i <> 0%nat) ->
  filter (fun d => DisplayField.tabIndex d = 0)
    (imap (fun i => formatField (g i)) fs) = [].
Proof.
  revert g. induction fs as [|f fs IH]; intros g Hg; [reflexivity|].
  rewrite imap_cons, filter_cons.
  destruct (decide (DisplayField.tabIndex (formatField (g 0%nat) f) = 0)) as [H0|_].
  - exfalso. revert H0. unfold formatField. simpl.
    destruct (Nat.eqb_spec (g 0%nat) 0); [|discriminate].
    intros _. eapply Hg. eassumption.
  - apply (IH (fun i => g (S i))). intros i. apply Hg.
Qed.

(** X1: a card has a single tab stop: among the entries built by
    [fields], exactly one has [tabIndex] 0 when the product has at least
    one field (none when it has no field), it is the first entry, and
    every other entry has [tabIndex] -1. *)
Theorem fields_single_tab_stop (displayData : Product.t) :
  length (filter (fun d => DisplayField.tabIndex d = 0) (fields displayData))
  = Nat.min 1 (length (default [] (Product.fields displayData)))
  /\ (forall (i : nat) (d : DisplayField.t),
        fields displayData !! i = Some d ->
        DisplayField.tabIndex d = if decide (i = 0%nat) then 0 else -1).
Proof.
  unfold fields. split.
  - destruct (default [] (Product.fields displayData)) as [|f fs]; [reflexivity|].
    rewrite imap_cons, filter_cons.
    change (imap (formatField ∘ S) fs)
      with (imap (fun i => formatField (S i)) fs).
    rewrite (no_tab_stop_later S fs) by discriminate. reflexivity.
  - intros i d. rewrite list_lookup_imap.
    destruct (default [] (Product.fields displayData) !! i) as [f|];
      simpl; [|discriminate].
    intros [= <-]. destruct i; reflexivity.
Qed.

(** X2: the entries built by [fields] are numbered 1, 2, ..., n in the
    order of the product's fields, so no two entries share an id. *)
Theorem fields_ids_count_from_one (displayData : Product.t) :
  DisplayField.id <$> fields displayData
  = (fun i : nat => Z.of_nat i + 1)
      <$> seq 0 (length (default [] (Product.fields displayData)))
  /\ NoDup (DisplayField.id <$> fields displayData).
Proof.
  assert (Hids : DisplayField.id <$> fields displayData
                 = (fun i : nat => Z.of_nat i + 1)
                     <$> seq 0 (length (default [] (Product.fields displayData)))).
  { unfold fields. rewrite fmap_imap, <- imap_seq_0.
    apply imap_ext. reflexivity. }
  split; [exact Hids|].
  rewrite Hids. apply NoDup_fmap_2; [|apply NoDup_seq].
  intros i j Hij. lia.
Qed.

(** X3: on a card with a [prices] object, [price] is the negotiated
    price when that one is a non-empty text and the listing price
    otherwise, and [hasPrice] is true exactly when one of them is a
    non-empty text. *)
Theorem price_prefers_negotiated (id name : string) (image : option Image.t)
    (fields : option (list Field.t)) (prices : Pricing.t) :
  let card := Product.mk id name image fields (Some prices) in
  exists v,
    price card = Ok v
    /\ hasPrice card = Ok (truthy v)
    /\ (Spec.present (Pricing.negotiatedPrice prices) ->
          v = prop (Pricing.negotiatedPrice prices))
    /\ (~ Spec.present (Pricing.negotiatedPrice prices) ->
          v = prop (Pricing.listingPrice prices))
    /\ (truthy v = true <->
          Spec.present (Pricing.negotiatedPrice prices)
          \/ Spec.present (Pricing.listingPrice prices)).
Proof.
  cbv zeta. destruct prices as [lp np cur]. unfold hasPrice, price. simpl.
  eexists. split; [reflexivity|]. split; [reflexivity|].
  pose proof (CardTheory.truthy_prop_present np) as Hn.
  pose proof (CardTheory.truthy_prop_present lp) as Hl.
  rewrite CardTheory.truthy_or_else. unfold or_else.
  destruct (truthy (prop np)) eqn:En.
  - split; [reflexivity|]. split; [tauto|]. simpl. tauto.
  - split; [intros H; apply Hn in H; discriminate|].
    split; [reflexivity|]. simpl. rewrite Hl. split; [tauto|].
    intros [H|H]; [apply Hn in H; discriminate | exact H].
Qed.

(** X4: whenever [canShowListingPrice] is truthy, the card has a price,
    the price shown is the negotiated one, and the listing price is a
    non-empty text. *)
Theorem listing_shown_beside_negotiated (Number : JSValue -> spec_float)
    (displayData : Product.t) (v : JSValue) :
  canShowListingPrice Number displayData = Ok v ->
  truthy v = true ->
  exists (prices : Pricing.t) (negotiated listing : string),
    Product.prices displayData = Some prices
    /\ Pricing.negotiatedPrice prices = Some negotiated
    /\ Pricing.listingPrice prices = Some listing
    /\ negotiated <> "" /\ listing <> ""
    /\ price displayData = Ok (JSString negotiated)
    /\ hasPrice displayData = Ok true
    /\ listingPrice displayData = Ok (JSString listing).
Proof.
  unfold canShowListingPrice, hasPrice, price, listingPrice, readPrices.
  destruct (Product.prices displayData) as [[lp np cur]|]; simpl; [|discriminate].
  intros [= <-]. rewrite !CardTheory.truthy_and_then.
  cbn [Pricing.negotiatedPrice Pricing.listingPrice].
  rewrite !andb_true_iff. intros [[Hn Hl] _].
  pose proof (proj1 (CardTheory.truthy_prop_present np) Hn) as (n & -> & Hne).
  pose proof (proj1 (CardTheory.truthy_prop_present lp) Hl) as (l & -> & Hle).
  exists (Pricing.mk (Some l) (Some n) cur), n, l.
  repeat split; try assumption.
  - unfold or_else. rewrite Hn. reflexivity.
  - unfold or_else. rewrite Hn. simpl in Hn |- *. rewrite Hn. reflexivity.
Qed.

(** X4 at work on a product listed at 12.00 and negotiated at 9.50. *)
Lemma listing_shown_beside_negotiated_witness :
  exists (prices : Pricing.t) (negotiated listing : string),
    Product.prices Spec.labelledProduct = Some prices
    /\ Pricing.negotiatedPrice prices = Some negotiated
    /\ Pricing.listingPrice prices = Some listing
    /\ negotiated <> "" /\ listing <> ""
    /\ price Spec.labelledProduct = Ok (JSString negotiated)
    /\ hasPrice Spec.labelledProduct = Ok true
    /\ listingPrice Spec.labelledProduct = Ok (JSString listing).
Proof.
  apply (listing_shown_beside_negotiated Trace.sampleNumber
           Spec.labelledProduct (JSBool true)); reflexivity.
Defined.

End CardFacts.

(** ** Properties of the layout configuration *)

Module LayoutFacts.
Import JS SearchResults CardLayout ResultsView.

(** X5: without a [config] the card shows no image and leaves its
    action enabled, but asking for its container class raises; with a
    [config] the class is the boxed grid one exactly when the layout is
    [grid], and the list one for every other or missing layout. *)
Theorem card_without_config (c : CardConfig.t) :
  showImage None = false
  /\ actionDisabled None = false
  /\ throws (cardContainerClass None)
  /\ (CardConfig.resultsLayout c = Some "grid" ->
        cardContainerClass (Some c) = Ok "slds-box card-layout-grid")
  /\ (CardConfig.resultsLayout c <> Some "grid" ->
        cardContainerClass (Some c) = Ok "card-layout-list").
Proof.
  unfold throws. repeat split; eauto.
  - intros H. unfold cardContainerClass. rewrite H. reflexivity.
  - intros H. unfold cardContainerClass.
    destruct (CardConfig.resultsLayout c) as [layout|]; [|reflexivity].
    destruct (String.eqb_spec layout "grid") as [->|]; [contradiction|reflexivity].
Qed.

(** X6: a card that receives the card configuration built by the search
    results component has its action disabled exactly when the cart
    status is [Processing] or [Checkout]; with no cart summary yet the
    action is enabled. *)
Theorem card_action_follows_cart (resultsLayout : option string)
    (showProductImage : JSValue) (c : Component) :
  let cardConfig :=
    LayoutConfig.cardConfig
      (Config.layoutConfig (config resultsLayout showProductImage c)) in
  actionDisabled (Some cardConfig) = isCartLocked c
  /\ showImage (Some cardConfig) = truthy showProductImage
  /\ CardConfig.resultsLayout cardConfig = resultsLayout
  /\ (isCartLocked c = true <->
        exists s, _cartSummary c = Some s
                  /\ (CartSummary.status s = "Processing"
                      \/ CartSummary.status s = "Checkout")).
Proof.
  cbv zeta. repeat split.
  - unfold isCartLocked. destruct (_cartSummary c) as [s|]; [|discriminate].
    intros H. exists s. split; [reflexivity|].
    apply orb_true_iff in H. destruct H as [H|H]; apply String.eqb_eq in H; auto.
  - intros (s & Hs & H). unfold isCartLocked. rewrite Hs.
    apply orb_true_iff. destruct H as [H|H]; rewrite H; auto.
Qed.

End LayoutFacts.

(** ** Further properties of the search results component *)

Module CoordinatorFacts.
Import JS SearchResults Spec Trace ResultsView.

Lemma resolved_is_resolvedAccount (c : Component) :
  resolvedAccount (resolvedEffectiveAccountId c).
Proof.
  unfold resolvedAccount, resolvedEffectiveAccountId.
  destruct (_effectiveAccountId c) as [s|]; simpl; [|split; discriminate].
  rewrite CoordinatorTheory.length_pos_nonempty.
  destruct (String.eqb_spec s ""); simpl; [split; discriminate|].
  destruct (String.eqb_spec s "000000000000000"); simpl; [split; discriminate|].
  split; intros [= ->]; contradiction.
Qed.

Lemma lastQuery_update (f : Component -> Component) (w : World) :
  lastQuery (update f w) = lastQuery w.
Proof. reflexivity. Qed.

Lemma trigger_in_flight (w : World) : searchInFlight (triggerProductSearch w).
Proof.
  exists (length (promises w)). eexists. split; [|split].
  - unfold triggerProductSearch, invoke. simpl.
    apply list_lookup_middle. reflexivity.
  - reflexivity.
  - reflexivity.
Qed.

Lemma in_flight_more (w w' : World) (new : list Promise) :
  promises w' = (promises w ++ new)%list ->
  searchInFlight w -> searchInFlight w'.
Proof.
  intros Hp (i & p & Hi & Hs & Hpend). exists i, p. rewrite Hp.
  split; [|split; assumption].
  rewrite lookup_app_l; [exact Hi|]. eapply lookup_lt_Some, Hi.
Qed.

Section Runs.

Context {R : Type} (transformData : R -> option string -> DisplayData.t).

(** A property kept by every event is kept by every run. *)
Lemma run_invariant (P : World -> Prop) :
  (forall w e w', P w -> step transformData w e = Some w' -> P w') ->
  forall es w w', P w -> run transformData w es = Some w' -> P w'.
Proof.
  intros Hstep es. induction es as [|e es IH]; intros w w' Hw.
  - intros [= <-]. exact Hw.
  - cbn [run]. destruct (step transformData w e) as [w1|] eqn:He;
      intros Hrun; [|discriminate Hrun].
    apply (IH w1 w'); [eapply Hstep; eassumption | exact Hrun].
Qed.

(** A settling promise was pending and is marked; no call is added. *)
Lemma settle_promises (i : nat) (s : Settlement R) (w w' : World) :
  settle transformData i s w = Some w' ->
  exists p, promises w !! i = Some p /\ settled p = false
            /\ promises w' = <[i := mkPromise (call p) true]> (promises w).
Proof.
  unfold settle. destruct (promises w !! i) as [p|]; simpl; [|discriminate].
  destruct (settled p) eqn:Hs; [discriminate|].
  intros H. exists p. split; [reflexivity|]. split; [exact Hs|].
  revert H. generalize (<[i := mkPromise (call p) true]> (promises w)).
  intros ps. destruct (call p), s as [[r|c|]|e]; simpl; intros [= <-]; reflexivity.
Qed.

(** The calls that a handler adds. *)
Lemma handler_promises (e : Event R) (w w' : World) :
  (forall i s, e <> Settle i s) ->
  step transformData w e = Some w' ->
  exists new, promises w' = (promises w ++ new)%list
              /\ Forall (fun p => wellFormedCall (call p)) new.
Proof.
  intros Hne.
  assert (Hsearch : forall w0 : World,
            exists new,
              promises (triggerProductSearch w0) = (promises w0 ++ new)%list
              /\ Forall (fun p => wellFormedCall (call p)) new).
  { intros w0. eexists. split; [reflexivity|].
    apply Forall_singleton. simpl.
    split; [reflexivity|]. split; [reflexivity|].
    apply resolved_is_resolvedAccount. }
  assert (Hcart : forall w0 : World,
            exists new,
              promises (updateCartInformation w0) = (promises w0 ++ new)%list
              /\ Forall (fun p => wellFormedCall (call p)) new).
  { intros w0. eexists. split; [reflexivity|].
    apply Forall_singleton. simpl. apply resolved_is_resolvedAccount. }
  assert (Hnone : exists new,
            promises w = (promises w ++ new)%list
            /\ Forall (fun p => wellFormedCall (call p)) new).
  { exists []. split; [symmetry; apply app_nil_r | constructor]. }
  destruct e as [newId|value|value|value| | | | |refinements|categoryId| |i s];
    simpl.
  - intros [= <-]. apply (Hcart (update (with_effectiveAccountId newId) w)).
  - intros [= <-]. apply (Hsearch (update (with_landingRecordId value)
                                     (update (with_recordId value) w))).
  - unfold set_term. cbv zeta. destruct (truthy (prop value)); intros [= <-].
    + apply (Hsearch (update (with_term value) w)).
    + exact Hnone.
  - intros [= <-]. exact Hnone.
  - intros [= <-]. apply (Hcart w).
  - intros [= <-]. unfold handleClearAll. cbv zeta.
    match goal with |- context [triggerProductSearch ?w0] =>
      apply (Hsearch w0) end.
  - intros [= <-]. unfold handlePreviousPage. cbv zeta.
    match goal with |- context [triggerProductSearch ?w0] =>
      apply (Hsearch w0) end.
  - intros [= <-]. unfold handleNextPage. cbv zeta.
    match goal with |- context [triggerProductSearch ?w0] =>
      apply (Hsearch w0) end.
  - intros [= <-]. unfold handleFacetValueUpdate. cbv zeta.
    match goal with |- context [triggerProductSearch ?w0] =>
      apply (Hsearch w0) end.
  - intros [= <-]. unfold handleCategoryUpdate. cbv zeta.
    match goal with |- context [triggerProductSearch ?w0] =>
      apply (Hsearch w0) end.
  - intros [= <-]. eexists. split; [reflexivity|].
    apply Forall_singleton. exact I.
  - exfalso. eapply Hne. reflexivity.
Qed.

Lemma step_wellFormed (w : World) (e : Event R) (w' : World) :
  Forall (fun p => wellFormedCall (call p)) (promises w) ->
  step transformData w e = Some w' ->
  Forall (fun p => wellFormedCall (call p)) (promises w').
Proof.
  intros Hw Hstep.
  assert (Hcases : (exists i s, e = Settle i s) \/ (forall i s, e <> Settle i s)).
  { destruct e; try (right; discriminate). left. eauto. }
  destruct Hcases as [(i & s & ->)|Hne].
  - simpl in Hstep. destruct (settle_promises i s w w' Hstep) as (p & Hp & _ & ->).
    apply Forall_insert; [exact Hw|]. simpl.
    eapply (proj1 (Forall_lookup _ _) Hw). exact Hp.
  - destruct (handler_promises e w w' Hne Hstep) as (new & -> & Hnew).
    apply Forall_app. split; assumption.
Qed.

(** X7: whatever the events, every search the component sends asks for
    prices and quantity rules, and no call ever carries the empty or the
    all-zero placeholder account id: the account is either a real id or
    [null]. *)
Theorem gateway_calls_well_formed (es : list (Event R)) (w' : World) :
  run transformData newWorld es = Some w' ->
  Forall (fun p => wellFormedCall (call p)) (promises w').
Proof.
  apply (run_invariant (fun w => Forall (fun p => wellFormedCall (call p)) (promises w))).
  - intros w e w1. apply step_wellFormed.
  - constructor.
Qed.

End Runs.

(** X7 at work on the visit [browsing]. *)
Lemma gateway_calls_well_formed_witness :
  Forall (fun p => wellFormedCall (call p))
    (promises (default newWorld (run keepPage newWorld browsing))).
Proof.
  apply (gateway_calls_well_formed keepPage browsing
           (default newWorld (run keepPage newWorld browsing))).
  reflexivity.
Defined.

Example browsing_accounts :
  map call (promises (default newWorld (run keepPage newWorld browsing)))
  = [getCartSummary None;
     getCartSummary None;
     productSearch (SearchQuery.mk None (Some "0ZGlanding") [] 0 true true) None;
     productSearch (SearchQuery.mk (Some "") (Some "0ZGlanding")
                      ["colour: red"] 0 true true) None;
     productSearch (SearchQuery.mk (Some "") (Some "0ZGother")
                      ["colour: red"] 0 true true) None;
     productSearch (SearchQuery.mk (Some "") (Some "0ZGlanding") [] 0 true true) None;
     cleanCache].
Proof. reflexivity. Qed.

(** *** What runs keep *)

Section Kept.

Context {R : Type} (transformData : R -> option string -> DisplayData.t).

Lemma step_error (w : World) (e : Event R) (w' : World) :
  is_Some (error (this w)) ->
  step transformData w e = Some w' ->
  is_Some (error (this w')).
Proof.
  intros Herr.
  destruct e as [newId|value|value|value| | | | |refinements|categoryId| |i s];
    simpl; try (intros [= <-]; exact Herr).
  - unfold set_term. cbv zeta. destruct (truthy (prop value));
      intros [= <-]; exact Herr.
  - unfold settle. destruct (promises w !! i) as [p|]; simpl; [|discriminate].
    destruct (settled p); [discriminate|].
    destruct (call p), s as [[r|c|]|err]; simpl; intros [= <-];
      first [exact Herr | eexists; reflexivity].
Qed.

(** X8: the component never clears a recorded search error: once a
    search has failed, [error] stays set through every later event,
    successful searches included. *)
Theorem error_is_never_cleared (w : World) (es : list (Event R)) (w' : World) :
  is_Some (error (this w)) ->
  run transformData w es = Some w' ->
  is_Some (error (this w')).
Proof.
  intros Herr. revert Herr.
  apply (run_invariant transformData (fun w => is_Some (error (this w)))).
  intros w0 e w1. apply step_error.
Qed.

Lemma step_landing (e : Event R) (es : list (Event R)) (w w' : World) :
  step transformData w e = Some w' ->
  landingAfter (_landingRecordId (this w)) (e :: es)
  = landingAfter (_landingRecordId (this w')) es.
Proof.
  destruct e as [newId|value|value|value| | | | |refinements|categoryId| |i s];
    simpl; try (intros [= <-]; reflexivity).
  - unfold set_term. cbv zeta. destruct (truthy (prop value));
      intros [= <-]; reflexivity.
  - unfold settle. destruct (promises w !! i) as [p|]; simpl; [|discriminate].
    destruct (settled p); [discriminate|].
    destruct (call p), s as [[r|c|]|err]; simpl; intros [= <-]; reflexivity.
Qed.

Lemma landing_after_run (es : list (Event R)) (w w' : World) :
  run transformData w es = Some w' ->
  _landingRecordId (this w') = landingAfter (_landingRecordId (this w)) es.
Proof.
  revert w. induction es as [|e es IH]; intros w.
  - intros [= <-]. reflexivity.
  - cbn [run]. destruct (step transformData w e) as [w1|] eqn:He;
      intros Hrun; [|discriminate Hrun].
    rewrite (step_landing e es w w1 He). apply IH, Hrun.
Qed.

(** X9: clearing all filters goes back to the landing category, that is
    the value of the last [recordId] assignment, whatever categories
    were picked from the facets since: after [handleClearAll] the
    category is the landing one, the refinements are empty, the page is
    1, and the search issued says so while keeping the search term. *)
Theorem clearAll_returns_to_landing (w : World) (es : list (Event R)) (w' : World) :
  run transformData w es = Some w' ->
  let landing := landingAfter (_landingRecordId (this w)) es in
  _recordId (this (handleClearAll w')) = landing
  /\ _refinements (this (handleClearAll w')) = []
  /\ _pageNumber (this (handleClearAll w')) = 1
  /\ lastQuery (handleClearAll w')
     = Some (SearchQuery.mk (_term (this w')) landing [] 0 true true).
Proof.
  intros Hrun. cbv zeta. rewrite <- (landing_after_run es w w' Hrun).
  unfold handleClearAll. cbv zeta.
  rewrite CoordinatorTheory.lastQuery_trigger. repeat split.
Qed.



(** X11: the loading flag is never up with nothing in flight: after any
    run from a fresh component, if [_isLoading] is true then some search
    has been issued and has not settled. *)
Theorem loading_means_search_in_flight (es : list (Event R)) (w' : World) :
  run transformData newWorld es = Some w' ->
  _isLoading (this w') = true ->
  searchInFlight w'.
Proof.
  apply (run_invariant transformData
           (fun w => _isLoading (this w) = true -> searchInFlight w));
    [|discriminate].
  intros w e w1 Hw Hstep Hload.
  destruct e as [newId|value|value|value| | | | |refinements|categoryId| |i s];
    simpl in Hstep;
    try (injection Hstep as <-; apply trigger_in_flight).
  - injection Hstep as <-. eapply in_flight_more; [reflexivity|]. apply Hw, Hload.
  - injection Hstep as <-. revert Hload. unfold set_term. cbv zeta.
    destruct (truthy (prop value)); intros Hload.
    + apply trigger_in_flight.
    + eapply (in_flight_more w _ []); [symmetry; apply app_nil_r|]. apply Hw, Hload.
  - injection Hstep as <-.
    eapply (in_flight_more w _ []); [symmetry; apply app_nil_r|]. apply Hw, Hload.
  - injection Hstep as <-. eapply in_flight_more; [reflexivity|]. apply Hw, Hload.
  - injection Hstep as <-. eapply in_flight_more; [reflexivity|]. apply Hw, Hload.
  - destruct (settle_promises transformData i s w w1 Hstep) as (p & Hp & Hpend & Hps).
    rewrite (CoordinatorTheory.settle_loading transformData i s w w1 p Hp Hstep)
      in Hload.
    destruct (isSearch p) eqn:Hkind; [discriminate|].
    destruct (Hw Hload) as (j & q & Hj & Hq & Hqpend).
    exists j, q. split; [|split; assumption].
    rewrite Hps, list_lookup_insert_ne; [exact Hj|].
    intros ->. rewrite Hp in Hj. injection Hj as ->. congruence.
Qed.

(** X12: a cart refresh that fails leaves the component as it was (the
    previous cart summary stays in use), and one that succeeds replaces
    the cart summary and nothing else. *)
Theorem cart_refresh_settles (w : World) (i : nat) (p : Promise)
    (account : option string) :
  promises w !! i = Some p ->
  call p = getCartSummary account ->
  settled p = false ->
  (forall e : string,
     exists w', settle transformData i (Rejected e) w = Some w'
                /\ this w' = this w)
  /\ (forall summary : CartSummary.t,
        exists w', settle transformData i (Resolved (Summary summary)) w = Some w'
                   /\ this w' = with_cartSummary (Some summary) (this w)).
Proof.
  intros Hp Hc Hs. unfold settle. rewrite Hp. simpl. rewrite Hs, Hc. simpl.
  split; intros x; eexists; split; reflexivity.
Qed.

End Kept.

(** X8 at work: the error of a failed search survives a later success. *)
Lemma error_is_never_cleared_witness :
  is_Some (error (this (default newWorld
                          (run keepPage newWorld failThenSucceed)))).
Proof.
  apply (error_is_never_cleared keepPage
           (default newWorld
              (run keepPage newWorld [NextPage; Settle 0 (Rejected "network error")]))
           [NextPage; Settle 1 (Resolved (SearchPage thirdPage))]
           (default newWorld (run keepPage newWorld failThenSucceed))).
  - eexists. reflexivity.
  - reflexivity.
Defined.

(** X9 at work on the visit [browsing], stopped before it clears. *)
Lemma clearAll_returns_to_landing_witness :
  let w' := default newWorld (run keepPage newWorld (take 7 browsing)) in
  _recordId (this w') = Some "0ZGother"
  /\ _recordId (this (handleClearAll w')) = Some "0ZGlanding"
  /\ _refinements (this (handleClearAll w')) = []
  /\ _pageNumber (this (handleClearAll w')) = 1
  /\ lastQuery (handleClearAll w')
     = Some (SearchQuery.mk (Some "") (Some "0ZGlanding") [] 0 true true).
Proof.
  split; [reflexivity|].
  apply (clearAll_returns_to_landing keepPage newWorld (take 7 browsing)
           (default newWorld (run keepPage newWorld (take 7 browsing)))).
  reflexivity.
Defined.


(** X11 at work right after a page change. *)
Lemma loading_means_search_in_flight_witness :
  searchInFlight (handleNextPage newWorld).
Proof.
  apply (loading_means_search_in_flight keepPage [NextPage]
           (handleNextPage newWorld)); reflexivity.
Defined.

(** X12 at work on the cart refresh of a freshly mounted component. *)
Lemma cart_refresh_settles_witness :
  (forall e : string,
     exists w', settle keepPage 0 (Rejected e) (connectedCallback newWorld) = Some w'
                /\ this w' = this (connectedCallback newWorld))
  /\ (forall summary : CartSummary.t,
        exists w', settle keepPage 0 (Resolved (Summary summary))
                     (connectedCallback newWorld) = Some w'
                   /\ this w'
                      = with_cartSummary (Some summary)
                          (this (connectedCallback newWorld))).
Proof.
  apply (cart_refresh_settles keepPage (connectedCallback newWorld) 0
           (mkPromise (getCartSummary None) false) None); reflexivity.
Defined.

(** *** Queries issued by the setters and the page handlers *)


(** X14: unlike the facet and category handlers, the [term] and
    [recordId] setters do not go back to page 1: the search they issue
    asks for the current page with the current refinements.  The [term]
    setter stores even a term it does not search for, and the next
    search carries it. *)
Theorem term_and_recordId_keep_page (w : World) (value : option string) :
  lastQuery (set_term value w)
  = (if truthy (prop value)
     then Some (SearchQuery.mk value (_recordId (this w)) (_refinements (this w))
                  (_pageNumber (this w) - 1) true true)
     else lastQuery w)
  /\ lastQuery (set_recordId value w)
     = Some (SearchQuery.mk (_term (this w)) value (_refinements (this w))
               (_pageNumber (this w) - 1) true true)
  /\ _pageNumber (this (set_term value w)) = _pageNumber (this w)
  /\ _pageNumber (this (set_recordId value w)) = _pageNumber (this w)
  /\ SearchQuery.searchTerm <$> lastQuery (handleNextPage (set_term value w))
     = Some value.
Proof.
  split; [|split; [|split; [|split]]].
  - unfold set_term. cbv zeta. destruct (truthy (prop value)).
    + rewrite CoordinatorTheory.lastQuery_trigger. reflexivity.
    + apply lastQuery_update.
  - unfold set_recordId. cbv zeta.
    rewrite CoordinatorTheory.lastQuery_trigger. reflexivity.
  - unfold set_term. cbv zeta. destruct (truthy (prop value)); reflexivity.
  - reflexivity.
  - unfold handleNextPage. cbv zeta.
    rewrite CoordinatorTheory.lastQuery_trigger.
    unfold set_term. cbv zeta. destruct (truthy (prop value)); reflexivity.
Qed.

(** *** The range shown in the header *)

(** X15: when more than one item is found, the range printed by
    [headerText] never ends past the total; it ends at the total on the
    last page; for a page number and a page size of at least 1 with a
    first item inside the total the range is well ordered; and for a
    page past the last one (the page number is not bounded) it starts
    after its end. *)
Theorem headerText_range (c : Component) (d : DisplayData.t) :
  _displayData c = Some d ->
  1 < DisplayData.total d ->
  exists first last_ : Z,
    first = (_pageNumber c - 1) * DisplayData.pageSize d + 1
    /\ headerText c
       = pretty first +:+ " - " +:+ pretty last_ +:+ " of "
         +:+ pretty (DisplayData.total d) +:+ " Items"
    /\ last_ <= DisplayData.total d
    /\ (DisplayData.total d <= _pageNumber c * DisplayData.pageSize d ->
          last_ = DisplayData.total d)
    /\ (1 <= _pageNumber c -> 1 <= DisplayData.pageSize d ->
          first <= DisplayData.total d -> 1 <= first <= last_)
    /\ (DisplayData.total d < first -> last_ < first).
Proof.
  intros Hd Ht.
  exists ((_pageNumber c - 1) * DisplayData.pageSize d + 1),
    (Z.min ((_pageNumber c - 1) * DisplayData.pageSize d + 1
            + DisplayData.pageSize d - 1) (DisplayData.total d)).
  split; [reflexivity|]. split.
  - unfold headerText. rewrite Hd. cbv zeta.
    rewrite (proj2 (Z.ltb_lt _ _) Ht). reflexivity.
  - repeat split; nia.
Qed.

(** X15 at work on page 2 of 45 items, 25 to a page. *)
Lemma headerText_range_witness :
  exists first last_ : Z,
    first = (_pageNumber (showing 45 25 2) - 1) * 25 + 1
    /\ headerText (showing 45 25 2)
       = pretty first +:+ " - " +:+ pretty last_ +:+ " of "
         +:+ pretty 45 +:+ " Items"
    /\ last_ <= 45
    /\ (45 <= _pageNumber (showing 45 25 2) * 25 -> last_ = 45)
    /\ (1 <= _pageNumber (showing 45 25 2) -> 1 <= 25 ->
          first <= 45 -> 1 <= first <= last_)
    /\ (45 < first -> last_ < first).
Proof.
  apply (headerText_range (showing 45 25 2) (DisplayData.mk 45 25 []));
    reflexivity.
Defined.

Example headerText_past_last_page :
  headerText (showing 45 25 3) = "51 - 45 of 45 Items".
Proof. reflexivity. Qed.

End CoordinatorFacts.

(** ** Properties of the product list table *)

Module TableFacts.
Import JS CustomProductList.

Section Rows.

Context {Row : Type} (rowId : Row -> string).

(** The scan either finds no row with the id, or stops at the first. *)
Lemma someFrom_first (rows : list Row) (index : nat) (id : string) :
  (Forall (fun r => rowId r <> id) rows /\ someFrom rowId index rows id = -1)
  \/ (exists before victim after,
        rows = (before ++ victim :: after)%list
        /\ rowId victim = id
        /\ Forall (fun r => rowId r <> id) before
        /\ someFrom rowId index rows id = Z.of_nat (index + length before)).
Proof.
  revert index. induction rows as [|row rows IH]; intros index.
  - left. split; [constructor | reflexivity].
  - simpl. destruct (String.eqb_spec (rowId row) id) as [Heq|Hne].
    + right. exists [], row, rows. repeat split; [exact Heq | constructor |].
      simpl. f_equal. lia.
    + destruct (IH (S index)) as [[Hall Hnone]|(before & victim & after & -> & Hv & Hb & Hi)].
      * left. split; [constructor; assumption | exact Hnone].
      * right. exists (row :: before), victim, after.
        repeat split; [exact Hv | constructor; assumption |].
        rewrite Hi. simpl. f_equal. lia.
Qed.

(** X16: with row data present, [findRowIndexById] answers -1 when no
    row has the id, and otherwise the 0-based position of the first row
    that has it. *)
Theorem findRowIndexById_first (c : Component Row) (rows : list Row) (id : string) :
  data c = Some rows ->
  (Forall (fun r => rowId r <> id) rows
   /\ findRowIndexById rowId id c = Ok (-1))
  \/ (exists before victim after,
        rows = (before ++ victim :: after)%list
        /\ rowId victim = id
        /\ Forall (fun r => rowId r <> id) before
        /\ findRowIndexById rowId id c = Ok (Z.of_nat (length before))).
Proof.
  intros Hd. unfold findRowIndexById. rewrite Hd.
  destruct (someFrom_first rows 0 id) as [[Hall Hnone]|(b & v & a & Hr & Hv & Hb & Hi)].
  - left. split; [exact Hall|]. rewrite Hnone. reflexivity.
  - right. exists b, v, a. repeat split; try assumption. rewrite Hi. reflexivity.
Qed.

(** X17: with row data present, [deleteRow] leaves the component as it
    is when no row has the id of the given row, and otherwise removes
    the first row that has that id, and that row only, keeping the
    others in order and the selected record untouched. *)
Theorem deleteRow_removes_first (c : Component Row) (rows : list Row) (row : Row) :
  data c = Some rows ->
  (Forall (fun r => rowId r <> rowId row) rows
   /\ deleteRow rowId row c = Ok c)
  \/ (exists before victim after,
        rows = (before ++ victim :: after)%list
        /\ rowId victim = rowId row
        /\ Forall (fun r => rowId r <> rowId row) before
        /\ deleteRow rowId row c
           = Ok (mkComponent (Some (before ++ after)%list) (record c))).
Proof.
  intros Hd. unfold deleteRow.
  destruct (findRowIndexById_first c rows (rowId row) Hd)
    as [[Hall ->]|(b & v & a & Hr & Hv & Hb & ->)].
  - left. split; [exact Hall | reflexivity].
  - right. exists b, v, a. repeat split; try assumption. simpl.
    destruct (Z.eqb_spec (Z.of_nat (length b)) (-1)) as [Habs|_]; [lia|].
    rewrite Hd, Hr.
    replace (Z.to_nat (Z.of_nat (length b) + 1)) with (length (b ++ [v]))
      by (rewrite length_app; simpl; lia).
    assert (Hdrop : drop (length (b ++ [v])) (b ++ v :: a) = a).
    { change (b ++ v :: a)%list with (b ++ ([v] ++ a))%list.
      rewrite app_assoc. apply drop_app_length. }
    rewrite Nat2Z.id, take_app_length, Hdrop. reflexivity.
Qed.

(** X18: [deleteRow] never touches a row that has another id: the rows
    whose id differs from the one of the given row are the same, in the
    same order, before and after. *)
Theorem deleteRow_keeps_other_ids (c : Component Row) (rows : list Row) (row : Row) :
  data c = Some rows ->
  exists c' rows',
    deleteRow rowId row c = Ok c'
    /\ data c' = Some rows'
    /\ record c' = record c
    /\ filter (fun r => rowId r <> rowId row) rows'
       = filter (fun r => rowId r <> rowId row) rows
    /\ (length rows' = length rows \/ S (length rows') = length rows).
Proof.
  intros Hd.
  destruct (deleteRow_removes_first c rows row Hd)
    as [[Hall ->]|(b & v & a & -> & Hv & Hb & ->)].
  - exists c, rows. repeat split; auto.
  - eexists _, _. split; [reflexivity|]. split; [reflexivity|].
    split; [reflexivity|]. split.
    + rewrite !filter_app, filter_cons.
      destruct (decide (rowId v <> rowId row)); [contradiction|reflexivity].
    + right. rewrite !length_app. simpl. lia.
Qed.

(** X19: the row handlers read [this.data], which the class never
    initializes: while it is undefined, the [delete] action raises,
    whereas [show_details] records the row and any other action does
    nothing, with or without data. *)
Theorem handleRowAction_without_data (c : Component Row) (row : Row)
    (actionName : string) :
  (data c = None -> throws (handleRowAction rowId "delete" row c))
  /\ handleRowAction rowId "show_details" row c
     = Ok (mkComponent (data c) (Some row))
  /\ (actionName <> "delete" -> actionName <> "show_details" ->
        handleRowAction rowId actionName row c = Ok c).
Proof.
  split; [|split].
  - intros Hd. unfold handleRowAction, deleteRow, findRowIndexById, throws.
    simpl. rewrite Hd. simpl. eauto.
  - reflexivity.
  - intros H1 H2. unfold handleRowAction.
    destruct (String.eqb_spec actionName "delete"); [contradiction|].
    destruct (String.eqb_spec actionName "show_details"); [contradiction|].
    reflexivity.
Qed.

End Rows.

(** X16 at work on a table where the id [a1] occurs twice. *)
Lemma findRowIndexById_first_witness :
  (Forall (fun r => fst r <> "a1") Trace.sampleRows
   /\ findRowIndexById fst "a1" (mkComponent (Some Trace.sampleRows) None) = Ok (-1))
  \/ (exists before victim after,
        Trace.sampleRows = (before ++ victim :: after)%list
        /\ fst victim = "a1"
        /\ Forall (fun r => fst r <> "a1") before
        /\ findRowIndexById fst "a1" (mkComponent (Some Trace.sampleRows) None)
           = Ok (Z.of_nat (length before))).
Proof.
  apply (findRowIndexById_first fst (mkComponent (Some Trace.sampleRows) None)
           Trace.sampleRows "a1"). reflexivity.
Defined.

(** X17 at work: deleting the second [a1] row removes the first one. *)
Lemma deleteRow_removes_first_witness :
  (Forall (fun r => fst r <> fst ("a1", "Anvil, again")) Trace.sampleRows
   /\ deleteRow fst ("a1", "Anvil, again") (mkComponent (Some Trace.sampleRows) None)
      = Ok (mkComponent (Some Trace.sampleRows) None))
  \/ (exists before victim after,
        Trace.sampleRows = (before ++ victim :: after)%list
        /\ fst victim = fst ("a1", "Anvil, again")
        /\ Forall (fun r => fst r <> fst ("a1", "Anvil, again")) before
        /\ deleteRow fst ("a1", "Anvil, again")
             (mkComponent (Some Trace.sampleRows) None)
           = Ok (mkComponent (Some (before ++ after)%list)
                   (record (mkComponent (Some Trace.sampleRows) None)))).
Proof.
  apply (deleteRow_removes_first fst (mkComponent (Some Trace.sampleRows) None)
           Trace.sampleRows ("a1", "Anvil, again")). reflexivity.
Defined.

Example deleteRow_duplicate_id :
  deleteRow fst ("a1", "Anvil, again") (mkComponent (Some Trace.sampleRows) None)
  = Ok (mkComponent
          (Some [("b2", "Bolt"); ("a1", "Anvil, again"); ("c3", "Cog")]) None).
Proof. reflexivity. Qed.

(** X18 at work on the same table. *)
Lemma deleteRow_keeps_other_ids_witness :
  exists c' rows',
    deleteRow fst ("b2", "Bolt") (mkComponent (Some Trace.sampleRows) None) = Ok c'
    /\ data c' = Some rows'
    /\ record c' = record (mkComponent (Some Trace.sampleRows) None)
    /\ filter (fun r => fst r <> fst ("b2", "Bolt")) rows'
       = filter (fun r => fst r <> fst ("b2", "Bolt")) Trace.sampleRows
    /\ (length rows' = length Trace.sampleRows
        \/ S (length rows') = length Trace.sampleRows).
Proof.
  apply (deleteRow_keeps_other_ids fst (mkComponent (Some Trace.sampleRows) None)
           Trace.sampleRows ("b2", "Bolt")). reflexivity.
Defined.

End TableFacts.
